(** * FastMail MCP server: the batched JMAP request/response engine

    A shallow embedding of [fastmail_mcp_server.py] (class
    [FastMailMCPServer]) and the properties of its request building,
    response reading and session handling.

    - Python values that travel as JSON are the inductive [value];
      dictionaries keep insertion order, as Python's do.
    - A method of the server is a function from the server object's fields
      to an outcome and the fields afterwards: an exception does not undo
      the assignments made before it was raised. The requests handed to
      the HTTP client are recorded next to the fields, so that "no network
      I/O" and "one round trip" can be stated.
    - The HTTP client, [str()] of a non-string value, [str.lower] and the
      text rendering of result lists are the [Platform] the server runs
      on; every theorem holds for all of them. *)

From Stdlib Require Import String Ascii List ZArith Bool.
Import ListNotations.
Local Open Scope string_scope.
Local Open Scope Z_scope.
Set Warnings "-register-all".

(** ** Python values *)

(** JSON-decoded Python values. A string is a sequence of 8-bit
    characters: ASCII text as it is, other text as its UTF-8 bytes (so
    indexing and iterating a string follow Python on ASCII text). Numbers
    are the integers; JSON's fractional numbers are left out. *)
Inductive value : Type :=
| VNone
| VBool (b : bool)
| VInt (z : Z)
| VStr (s : string)
| VList (l : list value)
| VDict (d : list (string * value)).

(** A Python [dict] with string keys, in insertion order. *)
Definition dict := list (string * value).

(** Python's truth test ([if x:], [not x]). *)
Definition truthy (v : value) : bool :=
  match v with
  | VNone => false
  | VBool b => b
  | VInt z => negb (z =? 0)
  | VStr s => negb (s =? "")%string
  | VList l => match l with [] => false | _ => true end
  | VDict d => match d with [] => false | _ => true end
  end.

Fixpoint dict_lookup (d : dict) (k : string) : option value :=
  match d with
  | [] => None
  | (k', v) :: d' => if (k' =? k)%string then Some v else dict_lookup d' k
  end.

(** [k in d] *)
Definition dict_mem (d : dict) (k : string) : bool :=
  match dict_lookup d k with Some _ => true | None => false end.

(** [d.get(k, default)] *)
Definition dict_get_default (d : dict) (k : string) (default : value) : value :=
  match dict_lookup d k with Some v => v | None => default end.

(** [d.get(k)] *)
Definition dict_get (d : dict) (k : string) : value :=
  dict_get_default d k VNone.

(** [d[k] = v]: an existing key keeps its place, a new key goes last. *)
Fixpoint dict_set (d : dict) (k : string) (v : value) : dict :=
  match d with
  | [] => [(k, v)]
  | (k', v') :: d' =>
      if (k' =? k)%string then (k', v) :: d' else (k', v') :: dict_set d' k v
  end.

Definition dict_keys (d : dict) : list string := map fst d.

(** ** Exceptions *)

Inductive exn : Type :=
| KeyError (key : value)
| IndexError
| TypeError
| AttributeError (attr : string)
| JSONDecodeError
| Exception (msg : string).

Inductive res (A : Type) : Type :=
| Ok (a : A)
| Raise (e : exn).
Arguments Ok {A} a.
Arguments Raise {A} e.

Definition res_bind {A B} (r : res A) (k : A -> res B) : res B :=
  match r with
  | Ok a => k a
  | Raise e => Raise e
  end.

Declare Scope res_scope.
Delimit Scope res_scope with res.
Notation "'let?' x ':=' r 'in' k" := (res_bind r (fun x => k))
  (at level 10, x name, r at level 100, k at level 200) : res_scope.
Local Open Scope res_scope.

(** ** Subscription, attribute calls and iteration on arbitrary values *)

(** [d[k]] on the arguments dictionary. *)
Definition subscript (d : dict) (k : string) : res value :=
  match dict_lookup d k with
  | Some v => Ok v
  | None => Raise (KeyError (VStr k))
  end.

(** [v[k]] for a string key [k]. *)
Definition getitem (v : value) (k : string) : res value :=
  match v with
  | VDict d => subscript d k
  | _ => Raise TypeError
  end.

(** [v[i]] for a literal index [i >= 0]. A JSON object has no integer key. *)
Definition getindex (v : value) (i : nat) : res value :=
  match v with
  | VList l =>
      match nth_error l i with
      | Some x => Ok x
      | None => Raise IndexError
      end
  | VStr s =>
      match String.get i s with
      | Some c => Ok (VStr (String c EmptyString))
      | None => Raise IndexError
      end
  | VDict _ => Raise (KeyError (VInt (Z.of_nat i)))
  | _ => Raise TypeError
  end.

(** [v.get(k)] *)
Definition method_get (v : value) (k : string) : res value :=
  match v with
  | VDict d => Ok (dict_get d k)
  | _ => Raise (AttributeError "get")
  end.

(** [v.get(k, default)] *)
Definition method_get_default (v : value) (k : string) (default : value)
  : res value :=
  match v with
  | VDict d => Ok (dict_get_default d k default)
  | _ => Raise (AttributeError "get")
  end.

(** [list(v.values())] *)
Definition method_values (v : value) : res (list value) :=
  match v with
  | VDict d => Ok (map snd d)
  | _ => Raise (AttributeError "values")
  end.

(** The elements [for x in v] visits. *)
Definition iterate (v : value) : res (list value) :=
  match v with
  | VList l => Ok l
  | VStr s => Ok (map (fun c => VStr (String c EmptyString)) (list_ascii_of_string s))
  | VDict d => Ok (map (fun kv => VStr (fst kv)) d)
  | _ => Raise TypeError
  end.

(** [v.lower()], given the platform's [str.lower]. *)
Definition method_lower (lower : string -> string) (v : value) : res string :=
  match v with
  | VStr s => Ok (lower s)
  | _ => Raise (AttributeError "lower")
  end.

(** ** The platform: transport, builtins and presentation *)

Inductive http_method : Type := GET | POST.

Record http_request : Type := mkRequest {
  rq_method : http_method;
  rq_url : string;
  rq_headers : list (string * string);
  rq_json : option value
}.

(** [response.status_code], [response.text] and the outcome of
    [response.json()]. *)
Record http_response : Type := mkResponse {
  status_code : Z;
  text : string;
  json : res value
}.

Class Platform : Type := {
  (** what the HTTP client makes of a request, given the requests sent
      before it: the reply of the network, or the exception it raises
      when no reply comes *)
  transport : list http_request -> http_request -> res http_response;
  (** [str(v)] for a [v] that is not a string *)
  str_other : value -> string;
  (** [str.lower] *)
  str_lower : string -> string;
  (** [str(e)] for a builtin exception *)
  str_builtin_exn : exn -> string;
  (** presentation of result lists: lines 293-318, 325-351, 406-443,
      503-535 and 557-579 of the source, after the list is extracted
      (and found non-empty where the handler tests for that) *)
  render_mailboxes : dict -> value -> res string;
  render_found_mailboxes : dict -> value -> res string;
  render_emails : value -> value -> res string;
  render_search_results : dict -> value -> res string;
  render_email_body : value -> value -> res string
}.

(** The text an f-string puts for [{v}]. *)
Definition py_str `{Platform} (v : value) : string :=
  match v with
  | VStr s => s
  | _ => str_other v
  end.

(** [str(e)] *)
Definition exn_str `{Platform} (e : exn) : string :=
  match e with
  | Exception msg => msg
  | _ => str_builtin_exn e
  end.

(** ** Constants *)

Definition FASTMAIL_API_URL : string := "https://api.fastmail.com/jmap/api/".
Definition FASTMAIL_SESSION_URL : string := "https://api.fastmail.com/jmap/session".

Definition bytes (l : list nat) : string :=
  string_of_list_ascii (map ascii_of_nat l).

(** The marks that open the message texts, as the bytes of the source
    file. *)
Definition MARK_FAIL : string := bytes [226; 128; 154; 195; 185; 195; 165]%nat.
Definition MARK_OK : string := bytes [226; 128; 154; 195; 186; 195; 150]%nat.
Definition MARK_NO_MAIL : string :=
  bytes [239; 163; 191; 195; 188; 195; 172; 226; 137; 160]%nat.
Definition MARK_NO_MATCH : string :=
  bytes [239; 163; 191; 195; 188; 195; 174; 195; 167]%nat.

Definition NEWLINE : string := String (ascii_of_nat 10) EmptyString.

Definition NOT_CONFIGURED : exn :=
  Exception "FastMail not configured. Use configure_fastmail first.".

(** ** The server object *)

(** The fields of [FastMailMCPServer] ([None] is [VNone]) and [wire], the
    requests handed to the transport so far, oldest first. *)
Record FastMailMCPServer : Type := mkServer {
  api_token : value;
  account_id : value;
  session_data : value;
  wire : list http_request
}.

(** [__init__] *)
Definition init : FastMailMCPServer :=
  {| api_token := VNone; account_id := VNone; session_data := VNone;
     wire := [] |}.

(** A method: the outcome and the object afterwards. *)
Definition M (A : Type) : Type := FastMailMCPServer -> res A * FastMailMCPServer.

Definition ret {A} (a : A) : M A := fun self => (Ok a, self).
Definition raise {A} (e : exn) : M A := fun self => (Raise e, self).
Definition bind {A B} (m : M A) (k : A -> M B) : M B :=
  fun self =>
    match m self with
    | (Ok a, self') => k a self'
    | (Raise e, self') => (Raise e, self')
    end.
Definition lift {A} (r : res A) : M A := fun self => (r, self).

Declare Scope method_scope.
Delimit Scope method_scope with method.
Notation "x <- m ;; k" := (bind m (fun x => k))
  (at level 61, m at next level, right associativity) : method_scope.
Notation "m ;; k" := (bind m (fun _ => k))
  (at level 61, right associativity) : method_scope.

Definition get_api_token : M value := fun self => (Ok (api_token self), self).
Definition get_account_id : M value := fun self => (Ok (account_id self), self).
Definition get_session_data : M value := fun self => (Ok (session_data self), self).

Definition set_api_token (v : value) : M unit := fun self =>
  (Ok tt, {| api_token := v; account_id := account_id self;
             session_data := session_data self; wire := wire self |}).
Definition set_account_id (v : value) : M unit := fun self =>
  (Ok tt, {| api_token := api_token self; account_id := v;
             session_data := session_data self; wire := wire self |}).
Definition set_session_data (v : value) : M unit := fun self =>
  (Ok tt, {| api_token := api_token self; account_id := account_id self;
             session_data := v; wire := wire self |}).

(** The object once [rq] has gone out. *)
Definition sent (self : FastMailMCPServer) (rq : http_request)
  : FastMailMCPServer :=
  {| api_token := api_token self; account_id := account_id self;
     session_data := session_data self; wire := wire self ++ [rq] |}.

(** One round trip: the request joins [wire], the platform answers. *)
Definition send `{Platform} (rq : http_request) : M http_response := fun self =>
  (transport (wire self) rq, sent self rq).

(** What [make_jmap_request] makes of a reply, lines 282-285. *)
Definition jmap_result (response : http_response) : res value :=
  if negb (status_code response =? 200) then
    Raise (Exception ("JMAP API error: " ++ text response))
  else json response.

(** [not self.api_token or not self.account_id] *)
Definition not_configured (self : FastMailMCPServer) : bool :=
  negb (truthy (api_token self)) || negb (truthy (account_id self)).

(** ** The methods of the server *)

Section Methods.
Context {P : Platform}.
Local Open Scope method_scope.

Definition bearer (token : value) : string := "Bearer " ++ py_str token.

(** The request [configure_fastmail] makes, lines 242-245. *)
Definition session_request (token : value) : http_request :=
  {| rq_method := GET; rq_url := FASTMAIL_SESSION_URL;
     rq_headers := [("Authorization", bearer token)];
     rq_json := None |}.

(** The account [configure_fastmail] assigns, lines 253-256: the one
    given, or the primary mail account of the session. *)
Definition chosen_account (args : dict) (session : value) : res value :=
  if truthy (dict_get args "accountId") then subscript args "accountId"
  else
    let? primary := getitem session "primaryAccounts" in
    getitem primary "urn:ietf:params:jmap:mail".

(** [configure_fastmail], lines 237-261. *)
Definition configure_fastmail (args : dict) : M string :=
  token <- lift (subscript args "apiToken") ;;
  set_api_token token ;;
  token <- get_api_token ;;
  response <- send (session_request token) ;;
  if negb (status_code response =? 200) then
    raise (Exception ("Failed to authenticate: " ++ text response))
  else
    data <- lift (json response) ;;
    set_session_data data ;;
    data <- get_session_data ;;
    account <- lift (chosen_account args data) ;;
    set_account_id account ;;
    account <- get_account_id ;;
    data <- get_session_data ;;
    username <- lift (method_get_default data "username" (VStr "N/A")) ;;
    ret (MARK_OK ++ " FastMail configured successfully!" ++ NEWLINE
         ++ "Account ID: " ++ py_str account ++ NEWLINE
         ++ "Username: " ++ py_str username).

(** The body [make_jmap_request] posts. *)
Definition request_data (method_calls : list value) : value :=
  VDict [("using", VList [VStr "urn:ietf:params:jmap:core";
                          VStr "urn:ietf:params:jmap:mail"]);
         ("methodCalls", VList method_calls)].

Definition jmap_post (token : value) (method_calls : list value) : http_request :=
  {| rq_method := POST; rq_url := FASTMAIL_API_URL;
     rq_headers := [("Authorization", bearer token);
                    ("Content-Type", "application/json")];
     rq_json := Some (request_data method_calls) |}.

(** [make_jmap_request], lines 263-285. *)
Definition make_jmap_request (method_calls : list value) : M value :=
  token <- get_api_token ;;
  account <- get_account_id ;;
  if negb (truthy token) || negb (truthy account) then
    raise NOT_CONFIGURED
  else
    token <- get_api_token ;;
    response <- send (jmap_post token method_calls) ;;
    lift (jmap_result response).

(** What [make_jmap_request] returns for [method_calls] once it has
    found the server configured. *)
Definition jmap_outcome (self : FastMailMCPServer) (method_calls : list value)
  : res value :=
  let? response := transport (wire self)
                     (jmap_post (api_token self) method_calls) in
  jmap_result response.

(** [[["Mailbox/get", {"accountId": self.account_id}, "a"]]] *)
Definition mailbox_get_calls (account : value) : list value :=
  [VList [VStr "Mailbox/get"; VDict [("accountId", account)]; VStr "a"]].

(** [result["methodResponses"][i][1]] *)
Definition response_payload (result : value) (i : nat) : res value :=
  let? responses := getitem result "methodResponses" in
  let? entry := getindex responses i in
  getindex entry 1.

(** [result["methodResponses"][i][1]["list"]] *)
Definition response_list (result : value) (i : nat) : res value :=
  let? payload := response_payload result i in
  getitem payload "list".

(** [list_mailboxes], lines 287-318. *)
Definition list_mailboxes (args : dict) : M string :=
  account <- get_account_id ;;
  result <- make_jmap_request (mailbox_get_calls account) ;;
  lift (let? mailboxes := response_list result 0 in
        render_mailboxes args mailboxes).

(** [find_mailbox], lines 320-351. *)
Definition find_mailbox (args : dict) : M string :=
  account <- get_account_id ;;
  result <- make_jmap_request (mailbox_get_calls account) ;;
  lift (let? mailboxes := response_list result 0 in
        render_found_mailboxes args mailboxes).

(** The loop of [resolve_mailbox_id], lines 366-370. *)
Fixpoint first_mailbox_named (mailboxes : list value) (mailbox_name : value)
  : res value :=
  match mailboxes with
  | [] => Raise (Exception ("Mailbox '" ++ py_str mailbox_name ++ "' not found"))
  | mb :: rest =>
      let? name := getitem mb "name" in
      let? lhs := method_lower str_lower name in
      let? rhs := method_lower str_lower mailbox_name in
      if (lhs =? rhs)%string then getitem mb "id"
      else first_mailbox_named rest mailbox_name
  end.

(** [resolve_mailbox_id], lines 353-370. *)
Definition resolve_mailbox_id (mailbox_id mailbox_name : value) : M value :=
  if truthy mailbox_id then ret mailbox_id
  else if negb (truthy mailbox_name) then
    raise (Exception "Either mailboxId or mailboxName must be provided")
  else
    account <- get_account_id ;;
    result <- make_jmap_request (mailbox_get_calls account) ;;
    lift (let? mailboxes := response_list result 0 in
          let? mbs := iterate mailboxes in
          first_mailbox_named mbs mailbox_name).

(** [properties], lines 382-384 and 479-481. *)
Definition email_properties (include_body : value) : value :=
  VList (map VStr ["id"; "subject"; "from"; "to"; "receivedAt"; "preview";
                   "hasAttachment"; "keywords"]
         ++ (if truthy include_body
             then map VStr ["bodyValues"; "textBody"; "htmlBody"]
             else [])).

(** [method_calls] of [get_emails] and of [search_emails], lines 386-398
    and 483-495: the two literals differ in the filter only. *)
Definition query_get_calls (account email_filter limit properties : value)
  : list value :=
  [VList [VStr "Email/query";
          VDict [("accountId", account);
                 ("filter", email_filter);
                 ("sort", VList [VDict [("property", VStr "receivedAt");
                                        ("isAscending", VBool false)]]);
                 ("limit", limit)];
          VStr "q"];
   VList [VStr "Email/get";
          VDict [("accountId", account);
                 ("#ids", VDict [("resultOf", VStr "q");
                                 ("name", VStr "Email/query");
                                 ("path", VStr "/ids")]);
                 ("properties", properties)];
          VStr "g"]].

(** Lines 401-443 of [get_emails]: reading the reply. *)
Definition get_emails_reply (include_body result : value) : res string :=
  let? emails := response_list result 1 in
  if negb (truthy emails) then
    Ok (MARK_NO_MAIL ++ " No emails found in this mailbox.")
  else
    render_emails include_body emails.

(** [get_emails], lines 372-443. *)
Definition get_emails (args : dict) : M string :=
  mailbox_id <- resolve_mailbox_id (dict_get args "mailboxId")
                                   (dict_get args "mailboxName") ;;
  let limit := dict_get_default args "limit" (VInt 20) in
  let include_body := dict_get_default args "includeBody" (VBool false) in
  let properties := email_properties include_body in
  account <- get_account_id ;;
  result <- make_jmap_request
              (query_get_calls account (VDict [("inMailbox", mailbox_id)])
                               limit properties) ;;
  lift (get_emails_reply include_body result).

(** The filter [search_emails] builds, lines 447-471. *)
Definition search_filter (args : dict) : dict :=
  let email_filter : dict := [] in
  let email_filter :=
    let mailbox_id := dict_get args "mailboxId" in
    if truthy mailbox_id then dict_set email_filter "inMailbox" mailbox_id
    else email_filter in
  let email_filter :=
    let keyword := dict_get args "keyword" in
    if truthy keyword then dict_set email_filter "text" keyword
    else email_filter in
  let email_filter :=
    let from_email := dict_get args "from_email" in
    if truthy from_email then dict_set email_filter "from" from_email
    else email_filter in
  let email_filter :=
    let to_email := dict_get args "to_email" in
    if truthy to_email then dict_set email_filter "to" to_email
    else email_filter in
  let email_filter :=
    let subject := dict_get args "subject" in
    if truthy subject then dict_set email_filter "subject" subject
    else email_filter in
  let email_filter :=
    match dict_lookup args "hasAttachment" with
    | Some has_attachment => dict_set email_filter "hasAttachment" has_attachment
    | None => email_filter
    end in
  let email_filter :=
    let before := dict_get args "before" in
    if truthy before
    then dict_set email_filter "before" (VStr (py_str before ++ "T23:59:59Z"))
    else email_filter in
  let email_filter :=
    let after := dict_get args "after" in
    if truthy after
    then dict_set email_filter "after" (VStr (py_str after ++ "T00:00:00Z"))
    else email_filter in
  email_filter.

Definition NO_CRITERION : string :=
  MARK_FAIL ++ " Please provide at least one search criterion.".

(** Lines 498-535 of [search_emails]: reading the reply. *)
Definition search_emails_reply (args : dict) (result : value) : res string :=
  let? emails := response_list result 1 in
  if negb (truthy emails) then
    Ok (MARK_NO_MATCH ++ " No emails found matching your search criteria.")
  else
    render_search_results args emails.

(** [search_emails], lines 445-535. *)
Definition search_emails (args : dict) : M string :=
  let email_filter := search_filter args in
  if negb (truthy (VDict email_filter)) then ret NO_CRITERION
  else
    let limit := dict_get_default args "limit" (VInt 20) in
    let include_body := dict_get_default args "includeBody" (VBool false) in
    let properties := email_properties include_body in
    account <- get_account_id ;;
    result <- make_jmap_request
                (query_get_calls account (VDict email_filter) limit properties) ;;
    lift (search_emails_reply args result).

(** [get_email_body], lines 537-579. *)
Definition get_email_body (args : dict) : M string :=
  email_id <- lift (subscript args "emailId") ;;
  let format_type := dict_get_default args "format" (VStr "text") in
  let properties :=
    VList (map VStr ["id"; "subject"; "from"; "to"; "receivedAt";
                     "bodyValues"; "textBody"; "htmlBody"]) in
  account <- get_account_id ;;
  result <- make_jmap_request
              [VList [VStr "Email/get";
                      VDict [("accountId", account);
                             ("ids", VList [email_id]);
                             ("properties", properties)];
                      VStr "g"]] ;;
  lift (let? emails := response_list result 0 in
        if negb (truthy emails) then Ok (MARK_FAIL ++ " Email not found.")
        else render_email_body format_type emails).

(** [{"email": addr}] *)
Definition email_object (addr : value) : value := VDict [("email", addr)].

(** [[{"email": addr} for addr in v]] *)
Definition email_objects (v : value) : res (list value) :=
  let? addrs := iterate v in
  Ok (map email_object addrs).

(** [email_data], lines 591-610. *)
Definition email_data (to_emails cc_emails bcc_emails : list value)
  (subject body is_html : value) : dict :=
  let email_data : dict :=
    [("to", VList to_emails);
     ("subject", subject);
     ("bodyValues",
      VDict [("body1",
              VDict [("value", body);
                     ("type", VStr (if truthy is_html then "text/html"
                                    else "text/plain"))])])] in
  let email_data :=
    if truthy is_html
    then dict_set email_data "htmlBody"
           (VList [VDict [("partId", VStr "body1"); ("type", VStr "text/html")]])
    else dict_set email_data "textBody"
           (VList [VDict [("partId", VStr "body1"); ("type", VStr "text/plain")]]) in
  let email_data :=
    if truthy (VList cc_emails) then dict_set email_data "cc" (VList cc_emails)
    else email_data in
  let email_data :=
    if truthy (VList bcc_emails) then dict_set email_data "bcc" (VList bcc_emails)
    else email_data in
  email_data.

(** [method_calls] of [send_email], lines 612-629. *)
Definition send_calls (account : value) (draft : dict)
  (to_emails cc_emails bcc_emails : list value) : list value :=
  [VList [VStr "Email/set";
          VDict [("accountId", account);
                 ("create", VDict [("draft", VDict draft)])];
          VStr "e"];
   VList [VStr "EmailSubmission/set";
          VDict [("accountId", account);
                 ("create",
                  VDict [("submission",
                          VDict [("#emailId",
                                  VDict [("resultOf", VStr "e");
                                         ("name", VStr "Email/set");
                                         ("path", VStr "/created/draft/id")]);
                                 ("envelope",
                                  VDict [("mailFrom", VDict [("email", VStr "")]);
                                         ("rcptTo",
                                          VList (to_emails ++ cc_emails
                                                 ++ bcc_emails))])])])];
          VStr "s"]].

(** Lines 582-629 of [send_email]: from the arguments to the batch. *)
Definition send_email_calls (account : value) (args : dict) : res (list value) :=
  let? to := subscript args "to" in
  let? to_emails := email_objects to in
  let? cc_emails := email_objects (dict_get_default args "cc" (VList [])) in
  let? bcc_emails := email_objects (dict_get_default args "bcc" (VList [])) in
  let? subject := subscript args "subject" in
  let? body := subscript args "body" in
  let is_html := dict_get_default args "isHtml" (VBool false) in
  let draft := email_data to_emails cc_emails bcc_emails subject body is_html in
  Ok (send_calls account draft to_emails cc_emails bcc_emails).

(** [list(payload["notCreated"].values())[0]["description"]] *)
Definition first_error_description (payload : value) : res value :=
  let? not_created := getitem payload "notCreated" in
  let? errors := method_values not_created in
  let? error := getindex (VList errors) 0 in
  getitem error "description".

(** Lines 633-645 of [send_email]: reading the reply. *)
Definition send_email_reply (result : value) : res string :=
  let? email_result := response_payload result 0 in
  let? not_created := method_get email_result "notCreated" in
  if truthy not_created then
    let? description := first_error_description email_result in
    Ok (MARK_FAIL ++ " Failed to create email: " ++ py_str description)
  else
    let? submission_result := response_payload result 1 in
    let? not_created := method_get submission_result "notCreated" in
    if truthy not_created then
      let? description := first_error_description submission_result in
      Ok (MARK_FAIL ++ " Failed to send email: " ++ py_str description)
    else
      let? created := getitem submission_result "created" in
      let? submissions := method_values created in
      let? submission := getindex (VList submissions) 0 in
      let? submission_id := getitem submission "id" in
      Ok (MARK_OK ++ " Email sent successfully! Submission ID: "
          ++ py_str submission_id).

(** [send_email], lines 581-645. *)
Definition send_email (args : dict) : M string :=
  account <- get_account_id ;;
  method_calls <- lift (send_email_calls account args) ;;
  result <- make_jmap_request method_calls ;;
  lift (send_email_reply result).

(** [handle_call_tool], lines 216-235. *)
Definition handle_call_tool (name : string) (arguments : dict) : M string :=
  fun self =>
    let m : M string :=
      if (name =? "configure_fastmail")%string then configure_fastmail arguments
      else if (name =? "list_mailboxes")%string then list_mailboxes arguments
      else if (name =? "find_mailbox")%string then find_mailbox arguments
      else if (name =? "get_emails")%string then get_emails arguments
      else if (name =? "search_emails")%string then search_emails arguments
      else if (name =? "get_email_body")%string then get_email_body arguments
      else if (name =? "send_email")%string then send_email arguments
      else raise (Exception ("Unknown tool: " ++ name)) in
    match m self with
    | (Ok out, self') => (Ok out, self')
    | (Raise e, self') => (Ok ("Error: " ++ exn_str e), self')
    end.

End Methods.

(** ** The words of the specification *)

(** The criteria of a search, as (argument name, predicate key). *)
Definition CRITERIA : list (string * string) :=
  [("mailboxId", "inMailbox"); ("keyword", "text"); ("from_email", "from");
   ("to_email", "to"); ("subject", "subject");
   ("hasAttachment", "hasAttachment"); ("before", "before");
   ("after", "after")].

(** A field is supplied when the arguments carry it. *)
Definition supplied (args : dict) (field : string) : bool := dict_mem args field.

(** The predicate keys of the criteria that pass [test]. *)
Definition keys_of (test : string -> bool) : list string :=
  map snd (filter (fun c => test (fst c)) CRITERIA).

(** A back-reference and its wire encoding. *)
Record BackReference : Type := mkBackReference {
  sourceLabel : string;
  sourceMethodName : string;
  path : string
}.

Definition wire_reference (r : BackReference) : value :=
  VDict [("resultOf", VStr (sourceLabel r));
         ("name", VStr (sourceMethodName r));
         ("path", VStr (path r))].

(** Correlation as the specification words it: the (methodName, payload)
    of the entry of [methodResponses] that carries [label]. *)
Fixpoint spec_correlate_entries (entries : list value) (label : string)
  : option (value * value) :=
  match entries with
  | [] => None
  | VList [name; payload; VStr l] :: rest =>
      if (l =? label)%string then Some (name, payload)
      else spec_correlate_entries rest label
  | _ :: rest => spec_correlate_entries rest label
  end.

Definition spec_correlate (result : value) (label : string)
  : option (value * value) :=
  match getitem result "methodResponses" with
  | Ok (VList entries) => spec_correlate_entries entries label
  | _ => None
  end.

(** The fetch result under correlation by label. *)
Definition spec_fetch_result (result : value) : res value :=
  match spec_correlate result "g" with
  | Some (_, payload) => getitem payload "list"
  | None => Raise (Exception "MissingLabel(g)")
  end.

(** ** The requests and filters of the code, read back *)

(** The test [search_emails] applies to an argument: presence for
    [hasAttachment], truth of the value for the others. *)
Definition criterion_active (args : dict) (field : string) : bool :=
  if (field =? "hasAttachment")%string then dict_mem args field
  else truthy (dict_get args field).

(** The value [search_emails] stores for a criterion that passes its test. *)
Definition predicate_value `{Platform} (args : dict) (field : string) : value :=
  if (field =? "before")%string
  then VStr (py_str (dict_get args field) ++ "T23:59:59Z")
  else if (field =? "after")%string
  then VStr (py_str (dict_get args field) ++ "T00:00:00Z")
  else dict_get args field.

(** A batch of exactly two calls: an [Email/query] labeled [q] with the
    given filter, then an [Email/get] labeled [g] whose ids are not a
    literal but the back-reference to the [/ids] of [q]. *)
Definition two_step_batch (email_filter : value) (method_calls : list value)
  : Prop :=
  exists query_args get_args,
    method_calls = [VList [VStr "Email/query"; VDict query_args; VStr "q"];
                    VList [VStr "Email/get"; VDict get_args; VStr "g"]]
    /\ dict_lookup query_args "filter" = Some email_filter
    /\ dict_lookup get_args "#ids"
       = Some (wire_reference
                 {| sourceLabel := "q"; sourceMethodName := "Email/query";
                    path := "/ids" |})
    /\ dict_lookup get_args "ids" = None.

(** The method names of the calls a request carries, in order. *)
Definition request_method_names (rq : http_request) : list value :=
  match rq_json rq with
  | Some (VDict d) =>
      match dict_lookup d "methodCalls" with
      | Some (VList calls) =>
          map (fun call => match getindex call 0 with
                           | Ok name => name
                           | Raise _ => VNone
                           end) calls
      | _ => []
      end
  | _ => []
  end.

(** [method_calls[i][1]["create"][key]] *)
Definition created_object (method_calls : list value) (i : nat) (key : string)
  : res value :=
  let? call := getindex (VList method_calls) i in
  let? arguments := getindex call 1 in
  let? create := getitem arguments "create" in
  getitem create key.

(** The draft a send batch creates, and the envelope it submits. *)
Definition batch_draft (method_calls : list value) : res value :=
  created_object method_calls 0 "draft".

(** ** Concrete servers, arguments and replies *)

(** The transport answers the [n]-th request with the [n]-th reply of a
    script, and fails to connect once the script is over; the builtins
    and the renderers are fixed stand-ins. *)
Definition scripted (replies : list http_response) : Platform :=
  {| transport := fun sent _ =>
       match nth_error replies (length sent) with
       | Some reply => Ok reply
       | None => Raise (Exception "All connection attempts failed")
       end;
     str_other := fun _ => "<value>";
     str_lower := fun s => s;
     str_builtin_exn := fun _ => "<exception>";
     render_mailboxes := fun _ _ => Ok "<mailboxes>";
     render_found_mailboxes := fun _ _ => Ok "<found mailboxes>";
     render_emails := fun _ _ => Ok "<emails>";
     render_search_results := fun _ _ => Ok "<search results>";
     render_email_body := fun _ _ => Ok "<email body>" |}.

Definition offline : Platform := scripted [].

Definition reply_ok (body : value) : http_response :=
  mkResponse 200 "" (Ok body).

(** The arguments of a search whose keyword is the empty string. *)
Definition ARGS_EMPTY_KEYWORD : dict :=
  [("keyword", VStr ""); ("subject", VStr "x")].

(** The arguments of a search bounded by dates. *)
Definition ARGS_DATES : dict :=
  [("before", VStr "2024-01-10"); ("after", VStr "2024-01-01")].

(** A configured server object. *)
Definition CONFIGURED : FastMailMCPServer :=
  {| api_token := VStr "tok-1"; account_id := VStr "A1";
     session_data := VDict [("username", VStr "u@example.com")];
     wire := [] |}.

(** The arguments of a search whose date bounds are empty strings. *)
Definition ARGS_EMPTY_DATES : dict :=
  [("keyword", VStr "x"); ("before", VStr ""); ("after", VStr "")].

(** The reply to a query-then-get batch. *)
Definition QUERY_ENTRY : value :=
  VList [VStr "Email/query"; VDict [("ids", VList [VStr "E1"])]; VStr "q"].
Definition GET_ENTRY : value :=
  VList [VStr "Email/get";
         VDict [("list", VList [VDict [("id", VStr "E1")]])]; VStr "g"].
Definition RESULT_IN_ORDER : value :=
  VDict [("methodResponses", VList [QUERY_ENTRY; GET_ENTRY])].
Definition RESULT_REVERSED : value :=
  VDict [("methodResponses", VList [GET_ENTRY; QUERY_ENTRY])].

(** [get_emails] for mailbox [M1]. *)
Definition ARGS_INBOX : dict := [("mailboxId", VStr "M1")].

(** A reconfiguration with a new token, a session reply that names account
    [A2], and a reply that refuses the token. *)
Definition ARGS_NEW_TOKEN : dict := [("apiToken", VStr "tok-2")].
Definition SESSION_A2 : value :=
  VDict [("username", VStr "v@example.com");
         ("primaryAccounts",
          VDict [("urn:ietf:params:jmap:mail", VStr "A2")])].
Definition REPLY_DENIED : http_response :=
  mkResponse 401 "denied" (Raise JSONDecodeError).

(** Sending a message without subject, and the reply that refuses the
    draft. *)
Definition ARGS_SEND : dict :=
  [("to", VList [VStr "a@example.org"]); ("cc", VList [VStr "c@example.org"]);
   ("subject", VStr ""); ("body", VStr "hello")].
Definition RESULT_NOT_CREATED : value :=
  VDict [("methodResponses",
          VList [VList [VStr "Email/set";
                        VDict [("created", VDict []);
                               ("notCreated",
                                VDict [("draft",
                                        VDict [("type", VStr "invalidProperties");
                                               ("description",
                                                VStr "missing subject")])])];
                        VStr "e"];
                 VList [VStr "error";
                        VDict [("type", VStr "invalidResultReference")];
                        VStr "s"]])].



(** [get_emails] for the mailbox named [Inbox], and the reply that lists
    the mailboxes. *)
Definition ARGS_BY_NAME : dict := [("mailboxName", VStr "Inbox")].
Definition RESULT_MAILBOXES : value :=
  VDict [("methodResponses",
          VList [VList [VStr "Mailbox/get";
                        VDict [("list",
                                VList [VDict [("id", VStr "M1");
                                              ("name", VStr "Inbox");
                                              ("role", VStr "inbox");
                                              ("totalEmails", VInt 5);
                                              ("unreadEmails", VInt 2)]])];
                        VStr "a"]])].

(** * The catalogue, the dispatcher and the selection of mailboxes *)

(** ** Invariants of the tools *)

(** The tool names [handle_call_tool] dispatches, in the order of its
    tests. *)
Definition DISPATCHED : list string :=
  ["configure_fastmail"; "list_mailboxes"; "find_mailbox"; "get_emails";
   "search_emails"; "get_email_body"; "send_email"].



(** The [try]/[except] of [handle_call_tool], lines 217 and 234-235: an
    exception becomes the text of an ordinary reply. *)
Definition caught `{Platform} (m : M string) : M string := fun self =>
  match m self with
  | (Ok out, self') => (Ok out, self')
  | (Raise e, self') => (Ok ("Error: " ++ exn_str e), self')
  end.

(** ** The catalogue of tools *)

Module types.
(** [types.Tool], with the fields the server fills in. *)
Record Tool : Type := mkTool {
  name : string;
  description : string;
  inputSchema : value
}.
End types.

(** [handle_list_tools], lines 27-213. *)
Definition handle_list_tools : list types.Tool :=
  [
  {| types.name := "configure_fastmail";
     types.description :=
       "Configure FastMail API credentials";
     types.inputSchema :=
       VDict
         [("type", VStr "object");
          ("properties", VDict
           [("apiToken", VDict
             [("type", VStr "string");
              ("description", VStr "FastMail API token from Settings > Privacy & Security > Integrations")]);
            ("accountId", VDict
             [("type", VStr "string");
              ("description", VStr "Optional: FastMail account ID (will be auto-detected if not provided)")])]);
          ("required", VList [VStr "apiToken"])] |};
  {| types.name := "list_mailboxes";
     types.description :=
       "List all mailboxes/folders in the FastMail account with names, roles, and counts";
     types.inputSchema :=
       VDict
         [("type", VStr "object");
          ("properties", VDict
           [("role", VDict
             [("type", VStr "string");
              ("description", VStr "Filter by mailbox role: inbox, drafts, sent, trash, archive, junk")])])] |};
  {| types.name := "find_mailbox";
     types.description :=
       "Find a specific mailbox by name or role";
     types.inputSchema :=
       VDict
         [("type", VStr "object");
          ("properties", VDict
           [("name", VDict
             [("type", VStr "string");
              ("description", VStr "Name of the mailbox to find (supports partial matching)")]);
            ("role", VDict
             [("type", VStr "string");
              ("description", VStr "Mailbox role: inbox, drafts, sent, trash, archive, junk")])])] |};
  {| types.name := "get_emails";
     types.description :=
       "Get emails from a specific mailbox or folder";
     types.inputSchema :=
       VDict
         [("type", VStr "object");
          ("properties", VDict
           [("mailboxId", VDict
             [("type", VStr "string");
              ("description", VStr "ID of the mailbox (use find_mailbox or list_mailboxes to get ID)")]);
            ("mailboxName", VDict
             [("type", VStr "string");
              ("description", VStr "Name of the mailbox (alternative to mailboxId)")]);
            ("limit", VDict
             [("type", VStr "number");
              ("description", VStr "Maximum number of emails to retrieve");
              ("default", VInt 20)]);
            ("includeBody", VDict
             [("type", VStr "boolean");
              ("description", VStr "Include email body content");
              ("default", VBool false)])])] |};
  {| types.name := "search_emails";
     types.description :=
       "Search emails by keyword, sender, subject, or other criteria";
     types.inputSchema :=
       VDict
         [("type", VStr "object");
          ("properties", VDict
           [("keyword", VDict
             [("type", VStr "string");
              ("description", VStr "Text to search for in email content, subject, from/to fields")]);
            ("from_email", VDict
             [("type", VStr "string");
              ("description", VStr "Search emails from specific sender")]);
            ("to_email", VDict
             [("type", VStr "string");
              ("description", VStr "Search emails sent to specific recipient")]);
            ("subject", VDict
             [("type", VStr "string");
              ("description", VStr "Search emails by subject")]);
            ("mailboxId", VDict
             [("type", VStr "string");
              ("description", VStr "Limit search to specific mailbox")]);
            ("hasAttachment", VDict
             [("type", VStr "boolean");
              ("description", VStr "Filter emails with/without attachments")]);
            ("before", VDict
             [("type", VStr "string");
              ("description", VStr "Find emails before this date (YYYY-MM-DD format)")]);
            ("after", VDict
             [("type", VStr "string");
              ("description", VStr "Find emails after this date (YYYY-MM-DD format)")]);
            ("limit", VDict
             [("type", VStr "number");
              ("description", VStr "Maximum number of results");
              ("default", VInt 20)]);
            ("includeBody", VDict
             [("type", VStr "boolean");
              ("description", VStr "Include email body content");
              ("default", VBool false)])])] |};
  {| types.name := "get_email_body";
     types.description :=
       "Get the full body content of a specific email";
     types.inputSchema :=
       VDict
         [("type", VStr "object");
          ("properties", VDict
           [("emailId", VDict
             [("type", VStr "string");
              ("description", VStr "ID of the email to retrieve body for")]);
            ("format", VDict
             [("type", VStr "string");
              ("description", VStr "Body format: text, html, or both");
              ("default", VStr "text")])]);
          ("required", VList [VStr "emailId"])] |};
  {| types.name := "send_email";
     types.description :=
       "Send an email through FastMail";
     types.inputSchema :=
       VDict
         [("type", VStr "object");
          ("properties", VDict
           [("to", VDict
             [("type", VStr "array");
              ("items", VDict [("type", VStr "string")]);
              ("description", VStr "Recipient email addresses")]);
            ("cc", VDict
             [("type", VStr "array");
              ("items", VDict [("type", VStr "string")]);
              ("description", VStr "CC email addresses")]);
            ("bcc", VDict
             [("type", VStr "array");
              ("items", VDict [("type", VStr "string")]);
              ("description", VStr "BCC email addresses")]);
            ("subject", VDict
             [("type", VStr "string");
              ("description", VStr "Email subject")]);
            ("body", VDict
             [("type", VStr "string");
              ("description", VStr "Email body content")]);
            ("isHtml", VDict
             [("type", VStr "boolean");
              ("description", VStr "Whether the body is HTML format");
              ("default", VBool false)])]);
          ("required", VList [VStr "to"; VStr "subject"; VStr "body"])] |}
  ].

(** [schema["required"]], as argument names: a schema without the key
    requires nothing. *)
Definition schema_required (schema : value) : list string :=
  match getitem schema "required" with
  | Ok (VList fields) =>
      flat_map (fun f => match f with VStr s => [s] | _ => [] end) fields
  | _ => []
  end.

(** [schema["properties"][field]["default"]], when the schema gives one. *)
Definition schema_default (schema : value) (field : string) : option value :=
  match getitem schema "properties" with
  | Ok (VDict properties) =>
      match dict_lookup properties field with
      | Some (VDict property) => dict_lookup property "default"
      | _ => None
      end
  | _ => None
  end.

(** The arguments a schema declares: the keys of its [properties]. *)
Definition schema_arguments (schema : value) : list string :=
  match getitem schema "properties" with
  | Ok (VDict properties) => dict_keys properties
  | _ => []
  end.

(** The handlers by tool name, as [handle_call_tool] tests for them,
    lines 218-231. *)
Definition HANDLERS `{Platform} : list (string * (dict -> M string)) :=
  [("configure_fastmail", configure_fastmail);
   ("list_mailboxes", list_mailboxes);
   ("find_mailbox", find_mailbox);
   ("get_emails", get_emails);
   ("search_emails", search_emails);
   ("get_email_body", get_email_body);
   ("send_email", send_email)].

(** The defaults the catalogue advertises, as (tool, argument, default). *)
Definition catalogue_defaults : list (string * string * value) :=
  flat_map
    (fun t =>
       match getitem (types.inputSchema t) "properties" with
       | Ok (VDict properties) =>
           flat_map
             (fun property =>
                match schema_default (types.inputSchema t) (fst property) with
                | Some default => [(types.name t, fst property, default)]
                | None => []
                end)
             properties
       | _ => []
       end)
    handle_list_tools.

(** ** Predicates on mailboxes and drafts *)

(** The mailbox [mb] has a string name that differs from [wanted] once
    both are lowered. *)
Definition other_name `{Platform} (wanted : string) (mb : value) : Prop :=
  exists name,
    getitem mb "name" = Ok (VStr name) /\ str_lower name <> str_lower wanted.

(** [["key"]] when [l] is not empty, for the keys a draft carries only
    then. *)
Definition key_unless_empty (key : string) (l : list value) : list string :=
  match l with
  | [] => []
  | _ :: _ => [key]
  end.

(** ** Selecting mailboxes *)

(** Python's [==] on JSON values: booleans count as the integers 0 and 1,
    lists compare element by element, dictionaries key by key whatever
    their order, and values of different kinds differ. *)
Fixpoint py_eq (a b : value) {struct a} : bool :=
  match a, b with
  | VNone, VNone => true
  | VBool x, VBool y => Bool.eqb x y
  | VBool x, VInt y => (if x then 1 else 0) =? y
  | VInt x, VBool y => x =? (if y then 1 else 0)
  | VInt x, VInt y => x =? y
  | VStr x, VStr y => (x =? y)%string
  | VList xs, VList ys =>
      (fix all2 (xs ys : list value) {struct xs} : bool :=
         match xs, ys with
         | [], [] => true
         | x :: xs', y :: ys' => py_eq x y && all2 xs' ys'
         | _, _ => false
         end) xs ys
  | VDict d1, VDict d2 =>
      (length d1 =? length d2)%nat
      && (fix all1 (d : list (string * value)) {struct d} : bool :=
            match d with
            | [] => true
            | (k, v) :: d' =>
                match dict_lookup d2 k with
                | Some v2 => py_eq v v2
                | None => false
                end && all1 d'
            end) d1
  | _, _ => false
  end.

(** [needle in haystack] on strings. *)
Fixpoint str_contains (needle haystack : string) : bool :=
  String.prefix needle haystack
  || match haystack with
     | EmptyString => false
     | String _ rest => str_contains needle rest
     end.

(** [[mb for mb in mailboxes if mb.get("role") == role_filter]] *)
Fixpoint mailboxes_with_role (mailboxes : list value) (role_filter : value)
  : res (list value) :=
  match mailboxes with
  | [] => Ok []
  | mb :: rest =>
      let? role := method_get mb "role" in
      let? kept := mailboxes_with_role rest role_filter in
      Ok (if py_eq role role_filter then mb :: kept else kept)
  end.

(** Lines 291-295 of [list_mailboxes]: the mailboxes that are listed. *)
Definition listed_mailboxes (args : dict) (mailboxes : value) : res value :=
  let role_filter := dict_get args "role" in
  if truthy role_filter then
    let? mbs := iterate mailboxes in
    let? kept := mailboxes_with_role mbs role_filter in
    Ok (VList kept)
  else Ok mailboxes.

Section Finding.
Context {P : Platform}.

(** The test of the loop of [find_mailbox], lines 331-334. *)
Definition mailbox_found (name_search : string) (role_search mb : value)
  : res bool :=
  let? by_role :=
    if truthy role_search then
      let? role := method_get mb "role" in Ok (py_eq role role_search)
    else Ok false in
  if by_role then Ok true
  else if truthy (VStr name_search) then
    let? name := getitem mb "name" in
    let? lowered := method_lower str_lower name in
    Ok (str_contains name_search lowered)
  else Ok false.

(** The loop of [find_mailbox], lines 330-334. *)
Fixpoint found_among (mailboxes : list value) (name_search : string)
  (role_search : value) : res (list value) :=
  match mailboxes with
  | [] => Ok []
  | mb :: rest =>
      let? found := mailbox_found name_search role_search mb in
      let? others := found_among rest name_search role_search in
      Ok (if found then mb :: others else others)
  end.

(** Lines 325-337 of [find_mailbox]: the mailboxes found, or the text
    that says there is none. *)
Definition found_mailboxes (args : dict) (mailboxes : value)
  : res (string + list value) :=
  let? name_search :=
    method_lower str_lower (dict_get_default args "name" (VStr "")) in
  let role_search := dict_get args "role" in
  let? mbs := iterate mailboxes in
  let? found := found_among mbs name_search role_search in
  if negb (truthy (VList found)) then
    Ok (inl (MARK_FAIL ++ " No mailboxes found matching your criteria."))
  else Ok (inr found).

End Finding.

(** The mailbox is a JSON object whose role equals [role]. *)
Definition role_is (role mb : value) : bool :=
  match mb with
  | VDict d => py_eq (dict_get d "role") role
  | _ => false
  end.

Definition is_dict (v : value) : Prop := exists d, v = VDict d.

(** The mailbox is a JSON object with a string name. *)
Definition named_mailbox (mb : value) : Prop :=
  exists d name, mb = VDict d /\ dict_lookup d "name" = Some (VStr name).

(** The mailbox has the wanted role, or a name that holds the wanted
    text once lowered. *)
Definition mailbox_matches `{Platform} (name_search : string)
  (role_search mb : value) : bool :=
  match mb with
  | VDict d =>
      (truthy role_search && py_eq (dict_get d "role") role_search)
      || (negb (name_search =? "")%string
          && match dict_lookup d "name" with
             | Some (VStr name) => str_contains name_search (str_lower name)
             | _ => false
             end)
  | _ => false
  end.

(** ** More arguments and replies *)

(** A configuration that names its account, against a session whose
    primary mail account is another one. *)
Definition ARGS_NEW_ACCOUNT : dict :=
  [("apiToken", VStr "tok-2"); ("accountId", VStr "A7")].


(** Sending an HTML message with a blind copy. *)
Definition ARGS_SEND_HTML : dict :=
  [("to", VList [VStr "a@example.org"]); ("bcc", VList [VStr "b@example.org"]);
   ("subject", VStr "s"); ("body", VStr "<p>hello</p>");
   ("isHtml", VBool true)].

(** Three mailboxes, one of them without role. *)
Definition MAILBOXES3 : list value :=
  [VDict [("id", VStr "M1"); ("name", VStr "Inbox"); ("role", VStr "inbox")];
   VDict [("id", VStr "M2"); ("name", VStr "inbox-old"); ("role", VNone)];
   VDict [("id", VStr "M3"); ("name", VStr "Sent"); ("role", VStr "sent")]].

(** * Properties *)

(** ** Dictionaries *)

Lemma dict_lookup_set (d : dict) (k k' : string) (v : value) :
  dict_lookup (dict_set d k v) k'
  = if (k =? k')%string then Some v else dict_lookup d k'.
Proof.
  induction d as [|[k0 v0] d IH]; simpl.
  - reflexivity.
  - destruct (String.eqb_spec k0 k) as [->|Hne]; simpl.
    + destruct (k =? k')%string; reflexivity.
    + rewrite IH. destruct (String.eqb_spec k k') as [->|Hne'].
      * apply String.eqb_neq in Hne. rewrite Hne. reflexivity.
      * reflexivity.
Qed.

Lemma dict_lookup_cond_set (c : bool) (d : dict) (k k' : string) (v : value) :
  dict_lookup (if c then dict_set d k v else d) k'
  = if c && (k =? k')%string then Some v else dict_lookup d k'.
Proof. destruct c; simpl; [apply dict_lookup_set | reflexivity]. Qed.

Lemma dict_lookup_opt_set (o : option value) (d : dict) (k k' : string) :
  dict_lookup (match o with Some v => dict_set d k v | None => d end) k'
  = match o with
    | Some v => if (k =? k')%string then Some v else dict_lookup d k'
    | None => dict_lookup d k'
    end.
Proof. destruct o; [apply dict_lookup_set | reflexivity]. Qed.

Lemma dict_get_lookup (d : dict) (k : string) (v : value) :
  dict_lookup d k = Some v -> dict_get d k = v.
Proof. unfold dict_get, dict_get_default. intros ->. reflexivity. Qed.

Lemma dict_get_absent (d : dict) (k : string) :
  dict_mem d k = false -> dict_get d k = VNone.
Proof.
  unfold dict_mem, dict_get, dict_get_default.
  destruct (dict_lookup d k); [discriminate | reflexivity].
Qed.

(** ** Running a method *)

Lemma bind_run {A B} (m : M A) (k : A -> M B) (self : FastMailMCPServer) :
  bind m k self
  = match m self with
    | (Ok a, self') => k a self'
    | (Raise e, self') => (Raise e, self')
    end.
Proof. reflexivity. Qed.

Lemma bind_get_api_token {B} (k : value -> M B) (self : FastMailMCPServer) :
  bind get_api_token k self = k (api_token self) self.
Proof. reflexivity. Qed.

Lemma bind_get_account_id {B} (k : value -> M B) (self : FastMailMCPServer) :
  bind get_account_id k self = k (account_id self) self.
Proof. reflexivity. Qed.

Lemma bind_get_session_data {B} (k : value -> M B) (self : FastMailMCPServer) :
  bind get_session_data k self = k (session_data self) self.
Proof. reflexivity. Qed.

Lemma bind_lift {A B} (r : res A) (k : A -> M B) (self : FastMailMCPServer) :
  bind (lift r) k self
  = match r with
    | Ok a => k a self
    | Raise e => (Raise e, self)
    end.
Proof. destruct r; reflexivity. Qed.

(** A method that only reads the reply leaves the object alone. *)
Lemma bind_after {A B} (m : M A) (k : A -> M B)
  (self after : FastMailMCPServer) :
  snd (m self) = after ->
  (forall a s, snd (k a s) = s) ->
  snd (bind m k self) = after.
Proof.
  rewrite bind_run. destruct (m self) as [[a|e] s]; simpl; intros <- Hk;
    [apply Hk | reflexivity].
Qed.

(** ** The request step *)

Lemma make_jmap_request_not_configured `{Platform}
  (method_calls : list value) (self : FastMailMCPServer) :
  not_configured self = true ->
  make_jmap_request method_calls self = (Raise NOT_CONFIGURED, self).
Proof.
  unfold not_configured, make_jmap_request, bind, get_api_token,
    get_account_id, raise.
  intros ->. reflexivity.
Qed.

Lemma make_jmap_request_configured `{Platform}
  (method_calls : list value) (self : FastMailMCPServer) :
  not_configured self = false ->
  make_jmap_request method_calls self
  = (jmap_outcome self method_calls,
     sent self (jmap_post (api_token self) method_calls)).
Proof.
  unfold not_configured, make_jmap_request, jmap_outcome.
  rewrite !bind_get_api_token, bind_get_account_id.
  intros ->. rewrite bind_get_api_token, bind_run. unfold send.
  destruct (transport _ _); reflexivity.
Qed.

Lemma jmap_outcome_ok `{Platform} (self : FastMailMCPServer)
  (method_calls : list value) (response : http_response) (result : value) :
  transport (wire self) (jmap_post (api_token self) method_calls) = Ok response ->
  status_code response = 200 ->
  json response = Ok result ->
  jmap_outcome self method_calls = Ok result.
Proof.
  intros Ht Hs Hj. unfold jmap_outcome, jmap_result.
  rewrite Ht. simpl. rewrite Hs, Hj. reflexivity.
Qed.

Lemma request_then_read `{Platform} {A} (method_calls : list value)
  (read : value -> res A) (self : FastMailMCPServer) :
  not_configured self = false ->
  bind (make_jmap_request method_calls) (fun result => lift (read result)) self
  = (res_bind (jmap_outcome self method_calls) read,
     sent self (jmap_post (api_token self) method_calls)).
Proof.
  intros Hc. rewrite bind_run, (make_jmap_request_configured _ _ Hc).
  destruct (jmap_outcome _ _); reflexivity.
Qed.

Lemma request_refused `{Platform} {B} (method_calls : list value)
  (k : value -> M B) (self : FastMailMCPServer) :
  not_configured self = true ->
  bind (make_jmap_request method_calls) k self = (Raise NOT_CONFIGURED, self).
Proof.
  intros Hc. rewrite bind_run, (make_jmap_request_not_configured _ _ Hc).
  reflexivity.
Qed.

(** ** Filter compilation *)

Ltac in_criteria H :=
  unfold CRITERIA in H; simpl in H;
  repeat (destruct H as [H|H]; [inversion H; subst; clear H|]);
  [..|contradiction].

Ltac filter_cases args :=
  destruct (truthy (dict_get args "mailboxId"));
  destruct (truthy (dict_get args "keyword"));
  destruct (truthy (dict_get args "from_email"));
  destruct (truthy (dict_get args "to_email"));
  destruct (truthy (dict_get args "subject"));
  destruct (dict_lookup args "hasAttachment");
  destruct (truthy (dict_get args "before"));
  destruct (truthy (dict_get args "after")).

Lemma search_filter_keys `{Platform} (args : dict) :
  dict_keys (search_filter args) = keys_of (criterion_active args).
Proof.
  unfold search_filter, keys_of, criterion_active, CRITERIA, dict_mem.
  cbn [filter fst snd String.eqb Ascii.eqb Bool.eqb andb].
  filter_cases args; reflexivity.
Qed.

Lemma search_filter_lookup `{Platform} (args : dict) (field key : string) :
  In (field, key) CRITERIA ->
  dict_lookup (search_filter args) key
  = if criterion_active args field then Some (predicate_value args field)
    else None.
Proof.
  intros Hin. in_criteria Hin;
    unfold search_filter, criterion_active, predicate_value, dict_mem;
    rewrite ?dict_lookup_cond_set, ?dict_lookup_opt_set;
    cbn [String.eqb Ascii.eqb Bool.eqb andb dict_lookup];
    rewrite ?andb_false_r, ?andb_true_r;
    repeat match goal with
           | |- context [dict_lookup args ?k] =>
               destruct (dict_lookup args k) eqn:?
           | |- context [truthy ?v] => destruct (truthy v) eqn:?
           end;
    try reflexivity.
  symmetry. f_equal. now apply dict_get_lookup.
Qed.

Lemma in_dict_keys_lookup (d : dict) (k : string) :
  In k (dict_keys d) <-> dict_lookup d k <> None.
Proof.
  induction d as [|[k0 v0] d IH]; simpl.
  - split; [contradiction | congruence].
  - destruct (String.eqb_spec k0 k) as [->|Hne].
    + split; [discriminate | auto].
    + rewrite <- IH. split; [intros [?|?]; [contradiction | assumption] | auto].
Qed.

Lemma kept_key_in_table (test : string * string -> bool)
  (table : list (string * string)) (key : string) :
  In key (map snd (filter test table)) -> In key (map snd table).
Proof.
  rewrite !in_map_iff. intros (c & Hkey & Hc).
  exists c. apply filter_In in Hc. tauto.
Qed.

Lemma kept_keys_NoDup (test : string * string -> bool)
  (table : list (string * string)) :
  NoDup (map snd table) -> NoDup (map snd (filter test table)).
Proof.
  induction table as [|c table IH]; simpl; [trivial|].
  rewrite NoDup_cons_iff. intros [Hfresh Hrest].
  destruct (test c); simpl; [|tauto].
  apply NoDup_cons; [|tauto].
  contradict Hfresh. eapply kept_key_in_table, Hfresh.
Qed.

Lemma supplied_false_inactive (args : dict) (field : string) :
  supplied args field = false -> criterion_active args field = false.
Proof.
  unfold supplied, criterion_active. intros Habs.
  rewrite Habs, (dict_get_absent _ _ Habs).
  destruct (field =? "hasAttachment")%string; reflexivity.
Qed.

(** C4 (amended). The filter [search_emails] compiles holds exactly the
    predicate keys of the criteria that pass the handler's test, once each
    and in the order of the code: a criterion other than [hasAttachment]
    passes when its argument has a true value (a non-empty string), and
    [hasAttachment] passes when the argument is present, whatever its
    value. A field that is absent never yields its key, and the criteria
    other than the dates are stored under their key unchanged. *)
Theorem search_filter_exact_keys `{Platform} (args : dict) :
  dict_keys (search_filter args) = keys_of (criterion_active args)
  /\ NoDup (dict_keys (search_filter args))
  /\ (forall field key, In (field, key) CRITERIA ->
      (In key (dict_keys (search_filter args))
       <-> criterion_active args field = true)
      /\ (supplied args field = false ->
          ~ In key (dict_keys (search_filter args)))
      /\ (criterion_active args field = true ->
          field <> "before" -> field <> "after" ->
          dict_lookup (search_filter args) key = Some (dict_get args field))).
Proof.
  split; [apply search_filter_keys|]. split.
  - rewrite search_filter_keys. apply kept_keys_NoDup.
    unfold CRITERIA; simpl. repeat constructor; simpl; intuition discriminate.
  - intros field key Hin.
    pose proof (search_filter_lookup args field key Hin) as Hl.
    rewrite in_dict_keys_lookup, Hl. split; [|split].
    + destruct (criterion_active args field); split; congruence.
    + intros Habs. rewrite (supplied_false_inactive _ _ Habs). congruence.
    + intros Hact Hb Ha. rewrite Hact. f_equal.
      unfold predicate_value.
      apply String.eqb_neq in Hb, Ha. rewrite Hb, Ha. reflexivity.
Qed.

(** C4, the claim as written fails: a search whose [keyword] is supplied as
    the empty string, next to a subject, compiles to a filter without the
    key [text]. *)
Lemma search_filter_drops_empty_keyword :
  supplied ARGS_EMPTY_KEYWORD "keyword" = true
  /\ dict_keys (search_filter (P := offline) ARGS_EMPTY_KEYWORD) = ["subject"]
  /\ keys_of (supplied ARGS_EMPTY_KEYWORD) = ["text"; "subject"]
  /\ dict_keys (search_filter (P := offline) ARGS_EMPTY_KEYWORD)
     <> keys_of (supplied ARGS_EMPTY_KEYWORD).
Proof. repeat split; try reflexivity. discriminate. Qed.

Lemma search_filter_empty `{Platform} (args : dict) :
  (forall field, In field (map fst CRITERIA) ->
                 criterion_active args field = false) ->
  search_filter args = [].
Proof.
  intros Hnone.
  assert (Hk : dict_keys (search_filter args) = []).
  { rewrite search_filter_keys. unfold keys_of, CRITERIA.
    cbn [filter fst snd map].
    rewrite !Hnone by (simpl; tauto). reflexivity. }
  destruct (search_filter args); [reflexivity | discriminate].
Qed.

(** C5. When no criterion of a search passes the handler's test, and so
    whenever none of the eight search fields is supplied, the compiled
    filter is empty and [search_emails] answers with the
    at-least-one-criterion text at once: the server object, and with it
    the list of requests sent, is left as it was. Any request
    [search_emails] does send carries a non-empty filter. *)
Theorem search_emails_empty_criteria `{Platform}
  (args : dict) (self : FastMailMCPServer) :
  (forall field, In field (map fst CRITERIA) ->
                 criterion_active args field = false) ->
  search_filter args = []
  /\ search_emails args self = (Ok NO_CRITERION, self)
  /\ (forall args' self' rq,
        In rq (wire (snd (search_emails args' self'))) ->
        In rq (wire self')
        \/ (search_filter args' <> []
            /\ rq = jmap_post (api_token self')
                      (query_get_calls (account_id self')
                         (VDict (search_filter args'))
                         (dict_get_default args' "limit" (VInt 20))
                         (email_properties
                            (dict_get_default args' "includeBody"
                                              (VBool false)))))).
Proof.
  intros Hnone. pose proof (search_filter_empty args Hnone) as Hempty.
  split; [assumption|]. split.
  - unfold search_emails. rewrite Hempty. reflexivity.
  - clear. intros args self rq.
    unfold search_emails.
    destruct (search_filter args) as [|c f] eqn:Hf; cbn [truthy negb];
      cbv zeta.
    + simpl. auto.
    + rewrite bind_get_account_id.
      destruct (not_configured self) eqn:Hc.
      * rewrite bind_run, (make_jmap_request_not_configured _ _ Hc).
        simpl. auto.
      * erewrite bind_after; cycle 1.
        -- rewrite (make_jmap_request_configured _ _ Hc). reflexivity.
        -- reflexivity.
        -- simpl. intros Hin.
           apply in_app_or in Hin as [Hin|[<-|[]]]; [auto|].
           right. split; [discriminate | reflexivity].
Qed.

(** C5, at a search that sets only a limit. *)
Lemma search_emails_empty_criteria_witness :
  search_emails (P := offline) [("limit", VInt 5)] init
  = (Ok NO_CRITERION, init).
Proof.
  apply (search_emails_empty_criteria (H := offline) [("limit", VInt 5)] init).
  intros field Hin. simpl in Hin.
  repeat (destruct Hin as [<-|Hin]; [reflexivity|]). contradiction.
Defined.

Lemma truthy_str (d : string) :
  truthy (VStr d) = if (d =? "")%string then false else true.
Proof. simpl. destruct (d =? "")%string; reflexivity. Qed.

(** C6 (amended). A date bound supplied as a non-empty string [d] is
    stored as [d] followed by [T23:59:59Z] under [before] and as [d]
    followed by [T00:00:00Z] under [after], whatever [d] is: nothing checks
    that it is a date. A bound supplied as the empty string yields no key. *)
Theorem search_filter_date_bounds `{Platform} (args : dict) (d : string) :
  (dict_lookup args "before" = Some (VStr d) ->
   dict_lookup (search_filter args) "before"
   = if (d =? "")%string then None else Some (VStr (d ++ "T23:59:59Z")))
  /\ (dict_lookup args "after" = Some (VStr d) ->
      dict_lookup (search_filter args) "after"
      = if (d =? "")%string then None else Some (VStr (d ++ "T00:00:00Z"))).
Proof.
  split; intros Hd.
  - rewrite (search_filter_lookup args "before" "before")
      by (unfold CRITERIA; simpl; tauto).
    unfold criterion_active, predicate_value. simpl String.eqb.
    rewrite (dict_get_lookup _ _ _ Hd), truthy_str.
    destruct (d =? "")%string; reflexivity.
  - rewrite (search_filter_lookup args "after" "after")
      by (unfold CRITERIA; simpl; tauto).
    unfold criterion_active, predicate_value. simpl String.eqb.
    rewrite (dict_get_lookup _ _ _ Hd), truthy_str.
    destruct (d =? "")%string; reflexivity.
Qed.

(** C6, at the dates of the specification: [before = 2024-01-10] and
    [after = 2024-01-01]. *)
Lemma search_filter_date_bounds_witness :
  dict_lookup (search_filter (P := offline) ARGS_DATES) "before"
  = Some (VStr "2024-01-10T23:59:59Z")
  /\ dict_lookup (search_filter (P := offline) ARGS_DATES) "after"
     = Some (VStr "2024-01-01T00:00:00Z").
Proof.
  split.
  - apply (proj1 (search_filter_date_bounds (H := offline)
                    ARGS_DATES "2024-01-10")).
    reflexivity.
  - apply (proj2 (search_filter_date_bounds (H := offline)
                    ARGS_DATES "2024-01-01")).
    reflexivity.
Defined.

(** C6, the claim as written fails at the empty string: the bounds are
    dropped, not stored as [T23:59:59Z] and [T00:00:00Z]. *)
Lemma search_filter_drops_empty_date :
  search_filter (P := offline) ARGS_EMPTY_DATES = [("text", VStr "x")]
  /\ dict_lookup (search_filter (P := offline) ARGS_EMPTY_DATES) "before"
     <> Some (VStr ("" ++ "T23:59:59Z"))
  /\ dict_lookup (search_filter (P := offline) ARGS_EMPTY_DATES) "after"
     <> Some (VStr ("" ++ "T00:00:00Z")).
Proof. repeat split; discriminate. Qed.

(** ** Listing and searching emails *)

Lemma query_get_calls_two_step (account email_filter limit properties : value) :
  two_step_batch email_filter
    (query_get_calls account email_filter limit properties).
Proof. unfold two_step_batch, query_get_calls. do 2 eexists. repeat split. Qed.

Lemma resolve_mailbox_id_given `{Platform} (mailbox_id mailbox_name : value)
  (self : FastMailMCPServer) :
  truthy mailbox_id = true ->
  resolve_mailbox_id mailbox_id mailbox_name self = (Ok mailbox_id, self).
Proof. unfold resolve_mailbox_id. intros ->. reflexivity. Qed.

Lemma get_emails_resolved `{Platform} (args : dict)
  (self self' : FastMailMCPServer) (mailbox_id : value) :
  resolve_mailbox_id (dict_get args "mailboxId") (dict_get args "mailboxName")
    self = (Ok mailbox_id, self') ->
  not_configured self' = false ->
  let include_body := dict_get_default args "includeBody" (VBool false) in
  let method_calls :=
    query_get_calls (account_id self') (VDict [("inMailbox", mailbox_id)])
      (dict_get_default args "limit" (VInt 20))
      (email_properties include_body) in
  get_emails args self
  = (res_bind (jmap_outcome self' method_calls)
              (get_emails_reply include_body),
     sent self' (jmap_post (api_token self') method_calls)).
Proof.
  intros Hres Hc. cbv zeta. unfold get_emails.
  rewrite bind_run, Hres. cbv zeta.
  rewrite bind_get_account_id. apply (request_then_read _ _ _ Hc).
Qed.

Lemma search_emails_run `{Platform} (args : dict) (self : FastMailMCPServer) :
  search_filter args <> [] ->
  not_configured self = false ->
  let method_calls :=
    query_get_calls (account_id self) (VDict (search_filter args))
      (dict_get_default args "limit" (VInt 20))
      (email_properties (dict_get_default args "includeBody" (VBool false))) in
  search_emails args self
  = (res_bind (jmap_outcome self method_calls) (search_emails_reply args),
     sent self (jmap_post (api_token self) method_calls)).
Proof.
  intros Hf Hc. cbv zeta. unfold search_emails.
  destruct (search_filter args) as [|c f]; [congruence|].
  cbn [truthy negb]. cbv zeta.
  rewrite bind_get_account_id. apply (request_then_read _ _ _ Hc).
Qed.

(** C1 (amended). The handlers read a reply by position, never by label.
    On a configured server, when the reply to the batch of [get_emails] or
    [search_emails] has at index 1 of [methodResponses] an entry
    [[name, payload, label]], the emails are the [list] member of that
    payload, whatever name and label the entry and its neighbours carry;
    the result of the query call is not read. When the entries arrive in
    submission order, [q] then [g], the entry at index 1 is the one that
    answers label [g], and reading by position agrees with correlating by
    label. *)
Theorem fetch_result_by_position `{Platform} (args : dict)
  (self : FastMailMCPServer) (response : http_response)
  (first name payload label : value) (rest : list value) :
  not_configured self = false ->
  truthy (dict_get args "mailboxId") = true ->
  (forall rq, transport (wire self) rq = Ok response) ->
  status_code response = 200 ->
  json response
  = Ok (VDict [("methodResponses",
                VList (first :: VList [name; payload; label] :: rest))]) ->
  fst (get_emails args self)
  = (let? emails := getitem payload "list" in
     if negb (truthy emails)
     then Ok (MARK_NO_MAIL ++ " No emails found in this mailbox.")
     else render_emails (dict_get_default args "includeBody" (VBool false))
            emails)
  /\ fst (search_emails args self)
     = (let? emails := getitem payload "list" in
        if negb (truthy emails)
        then Ok (MARK_NO_MATCH
                 ++ " No emails found matching your search criteria.")
        else render_search_results args emails)
  /\ (forall name0 payload0 name1 payload1,
      let in_order :=
        VDict [("methodResponses",
                VList [VList [name0; payload0; VStr "q"];
                       VList [name1; payload1; VStr "g"]])] in
      spec_correlate in_order "q" = Some (name0, payload0)
      /\ spec_correlate in_order "g" = Some (name1, payload1)
      /\ response_payload in_order 1 = Ok payload1
      /\ response_list in_order 1 = spec_fetch_result in_order).
Proof.
  intros Hc Hid Ht Hs Hj. split; [|split].
  - rewrite (get_emails_resolved args self self _
               (resolve_mailbox_id_given _ _ _ Hid) Hc).
    cbv zeta. rewrite (jmap_outcome_ok _ _ _ _ (Ht _) Hs Hj). reflexivity.
  - assert (Hf : search_filter args <> []).
    { intros Hf.
      pose proof (search_filter_lookup args "mailboxId" "inMailbox") as Hl.
      unfold criterion_active in Hl. simpl String.eqb in Hl.
      rewrite Hid, Hf in Hl. discriminate Hl. unfold CRITERIA; simpl; tauto. }
    rewrite (search_emails_run _ _ Hf Hc).
    cbv zeta. rewrite (jmap_outcome_ok _ _ _ _ (Ht _) Hs Hj). reflexivity.
  - intros. cbv zeta. repeat split.
Qed.

(** C1, at a reply in submission order: the list is rendered. *)
Lemma fetch_result_by_position_witness :
  fst (get_emails (P := scripted [reply_ok RESULT_IN_ORDER])
         ARGS_INBOX CONFIGURED)
  = Ok "<emails>".
Proof.
  apply (proj1 (fetch_result_by_position
                  (H := scripted [reply_ok RESULT_IN_ORDER])
                  ARGS_INBOX CONFIGURED (reply_ok RESULT_IN_ORDER)
                  QUERY_ENTRY (VStr "Email/get")
                  (VDict [("list", VList [VDict [("id", VStr "E1")]])])
                  (VStr "g") []
                  eq_refl eq_refl (fun _ => eq_refl) eq_refl eq_refl)).
Defined.

(** C1, the claim as written fails: when the two entries arrive reversed,
    correlation by label would still find the fetch result under [g], but
    [get_emails] reads the query's payload at index 1 and raises
    [KeyError] for [list]; in submission order it renders the list. *)
Lemma reversed_reply_misread :
  spec_fetch_result RESULT_REVERSED = Ok (VList [VDict [("id", VStr "E1")]])
  /\ spec_fetch_result RESULT_IN_ORDER = Ok (VList [VDict [("id", VStr "E1")]])
  /\ response_list RESULT_IN_ORDER 1 = Ok (VList [VDict [("id", VStr "E1")]])
  /\ response_list RESULT_REVERSED 1 = Raise (KeyError (VStr "list"))
  /\ fst (get_emails (P := scripted [reply_ok RESULT_IN_ORDER])
            ARGS_INBOX CONFIGURED) = Ok "<emails>"
  /\ fst (get_emails (P := scripted [reply_ok RESULT_REVERSED])
            ARGS_INBOX CONFIGURED) = Raise (KeyError (VStr "list"))
  /\ fst (search_emails (P := scripted [reply_ok RESULT_REVERSED])
            ARGS_INBOX CONFIGURED) = Raise (KeyError (VStr "list")).
Proof. repeat split. Qed.

(** C7. Once the mailbox of [get_emails] is resolved, by its id or by its
    name, on a configured server, the one request that follows carries a
    batch of exactly two calls: [Email/query] labeled [q], filtered on that
    mailbox, then [Email/get] labeled [g], whose ids are given under the
    key [#ids] as the back-reference to [q], [Email/query], [/ids].
    [search_emails] with a mailbox id sends the same shape of batch, its
    filter being the compiled one, which holds the mailbox under
    [inMailbox]. *)
Theorem two_step_fetch_batch `{Platform} (args : dict)
  (self self' : FastMailMCPServer) (mailbox_id : value) :
  resolve_mailbox_id (dict_get args "mailboxId") (dict_get args "mailboxName")
    self = (Ok mailbox_id, self') ->
  not_configured self' = false ->
  (exists method_calls,
      wire (snd (get_emails args self))
      = (wire self' ++ [jmap_post (api_token self') method_calls])%list
      /\ two_step_batch (VDict [("inMailbox", mailbox_id)]) method_calls)
  /\ (truthy (dict_get args "mailboxId") = true ->
      exists method_calls,
        wire (snd (search_emails args self))
        = (wire self ++ [jmap_post (api_token self) method_calls])%list
        /\ two_step_batch (VDict (search_filter args)) method_calls
        /\ dict_lookup (search_filter args) "inMailbox" = Some mailbox_id).
Proof.
  intros Hres Hc. split.
  - eexists. rewrite (get_emails_resolved _ _ _ _ Hres Hc). simpl.
    split; [reflexivity | apply query_get_calls_two_step].
  - intros Hid.
    rewrite (resolve_mailbox_id_given _ _ _ Hid) in Hres.
    injection Hres as <- <-.
    assert (Hin : dict_lookup (search_filter args) "inMailbox"
                  = Some (dict_get args "mailboxId")).
    { rewrite (search_filter_lookup args "mailboxId" "inMailbox")
        by (unfold CRITERIA; simpl; tauto).
      unfold criterion_active, predicate_value. simpl String.eqb.
      rewrite Hid. reflexivity. }
    assert (Hf : search_filter args <> []).
    { intros Hf. rewrite Hf in Hin. discriminate. }
    eexists. rewrite (search_emails_run _ _ Hf Hc). simpl.
    split; [reflexivity|]. split; [apply query_get_calls_two_step | exact Hin].
Qed.

(** C7, at [get_emails] for the mailbox named [Inbox], resolved to [M1]
    by a first round trip, and at [search_emails] within mailbox [M1]. *)
Lemma two_step_fetch_batch_witness :
  (exists method_calls,
      wire (snd (get_emails (P := scripted [reply_ok RESULT_MAILBOXES])
                   ARGS_BY_NAME CONFIGURED))
      = [jmap_post (P := offline) (VStr "tok-1") (mailbox_get_calls (VStr "A1"));
         jmap_post (P := offline) (VStr "tok-1") method_calls]
      /\ two_step_batch (VDict [("inMailbox", VStr "M1")]) method_calls)
  /\ (exists method_calls,
         wire (snd (search_emails (P := offline) ARGS_INBOX CONFIGURED))
         = [jmap_post (P := offline) (VStr "tok-1") method_calls]
         /\ two_step_batch (VDict [("inMailbox", VStr "M1")]) method_calls).
Proof.
  split.
  - apply (proj1 (two_step_fetch_batch
                    (H := scripted [reply_ok RESULT_MAILBOXES])
                    ARGS_BY_NAME CONFIGURED
                    (sent CONFIGURED
                       (jmap_post (P := offline) (VStr "tok-1")
                          (mailbox_get_calls (VStr "A1"))))
                    (VStr "M1") eq_refl eq_refl)).
  - destruct (proj2 (two_step_fetch_batch (H := offline)
                       ARGS_INBOX CONFIGURED CONFIGURED (VStr "M1")
                       eq_refl eq_refl) eq_refl)
      as (method_calls & Hwire & Hbatch & _).
    exists method_calls. split; assumption.
Defined.

(** ** Configuration *)

Lemma configure_fastmail_run `{Platform} (args : dict)
  (self : FastMailMCPServer) (token : value) :
  dict_lookup args "apiToken" = Some token ->
  let fetched :=
    {| api_token := token; account_id := account_id self;
       session_data := session_data self;
       wire := wire self ++ [session_request token] |} in
  configure_fastmail args self
  = match transport (wire self) (session_request token) with
    | Raise e => (Raise e, fetched)
    | Ok response =>
        if negb (status_code response =? 200) then
          (Raise (Exception ("Failed to authenticate: " ++ text response)),
           fetched)
        else
          match json response with
          | Raise e => (Raise e, fetched)
          | Ok data =>
              let stored :=
                {| api_token := token; account_id := account_id self;
                   session_data := data; wire := wire fetched |} in
              match chosen_account args data with
              | Raise e => (Raise e, stored)
              | Ok account =>
                  (let? username :=
                     method_get_default data "username" (VStr "N/A") in
                   Ok (MARK_OK ++ " FastMail configured successfully!"
                       ++ NEWLINE ++ "Account ID: " ++ py_str account
                       ++ NEWLINE ++ "Username: " ++ py_str username),
                   {| api_token := token; account_id := account;
                      session_data := data; wire := wire fetched |})
              end
          end
    end.
Proof.
  intros Htok. cbv zeta. unfold configure_fastmail, subscript.
  rewrite Htok, bind_lift. rewrite bind_run. cbn [set_api_token].
  rewrite bind_get_api_token. cbn [api_token].
  rewrite bind_run. unfold send at 1.
  cbn [wire sent api_token account_id session_data].
  destruct (transport _ _) as [response|e]; [|reflexivity].
  destruct (negb (status_code _ =? 200)); [reflexivity|].
  rewrite bind_lift. destruct (json _) as [data|e]; [|reflexivity].
  rewrite bind_run. cbn [set_session_data api_token account_id session_data wire].
  rewrite bind_get_session_data, bind_lift. cbn [session_data].
  destruct (chosen_account args data) as [account|e]; [|reflexivity].
  rewrite bind_run. cbn [set_account_id api_token account_id session_data wire].
  rewrite bind_get_account_id, bind_get_session_data, bind_lift.
  cbn [account_id session_data].
  destruct (method_get_default data "username" (VStr "N/A")); reflexivity.
Qed.

(** C3 (amended). A reconfiguration is not atomic; it assigns the fields
    one after the other. Without [apiToken] it raises and changes nothing.
    Otherwise the credential is replaced first, before the session is
    fetched: when the fetch fails, answers non-200 or cannot be parsed, the
    call raises with the new credential stored next to the account
    identifier and session data of before; when no account can be chosen,
    the new credential and session data stand next to the old account
    identifier. When an account is chosen, credential, session data and
    account identifier all hold the new configuration. *)
Theorem configure_fastmail_stepwise `{Platform} (args : dict)
  (self : FastMailMCPServer) :
  (dict_lookup args "apiToken" = None ->
   configure_fastmail args self = (Raise (KeyError (VStr "apiToken")), self))
  /\ (forall token,
      dict_lookup args "apiToken" = Some token ->
      let fetch := transport (wire self) (session_request token) in
      let after (account data : value) :=
        {| api_token := token; account_id := account; session_data := data;
           wire := wire self ++ [session_request token] |} in
      (forall e, fetch = Raise e ->
       configure_fastmail args self
       = (Raise e, after (account_id self) (session_data self)))
      /\ (forall response,
          fetch = Ok response -> status_code response <> 200 ->
          configure_fastmail args self
          = (Raise (Exception ("Failed to authenticate: " ++ text response)),
             after (account_id self) (session_data self)))
      /\ (forall response e,
          fetch = Ok response -> status_code response = 200 ->
          json response = Raise e ->
          configure_fastmail args self
          = (Raise e, after (account_id self) (session_data self)))
      /\ (forall response data e,
          fetch = Ok response -> status_code response = 200 ->
          json response = Ok data -> chosen_account args data = Raise e ->
          configure_fastmail args self = (Raise e, after (account_id self) data))
      /\ (forall response data account,
          fetch = Ok response -> status_code response = 200 ->
          json response = Ok data -> chosen_account args data = Ok account ->
          snd (configure_fastmail args self) = after account data)).
Proof.
  split.
  - intros Hnone. unfold configure_fastmail, subscript.
    rewrite Hnone. reflexivity.
  - intros token Htok. cbv zeta.
    rewrite (configure_fastmail_run args self token Htok). cbv zeta.
    repeat split.
    + intros e ->. reflexivity.
    + intros response -> Hs. apply Z.eqb_neq in Hs. rewrite Hs. reflexivity.
    + intros response e -> Hs He. rewrite Hs, He. reflexivity.
    + intros response data e -> Hs Hd He. rewrite Hs, Hd, He. reflexivity.
    + intros response data account -> Hs Hd Ha. rewrite Hs, Hd, Ha.
      reflexivity.
Qed.

(** C3, at a reconfiguration that succeeds: token [tok-2], account [A2]. *)
Lemma configure_fastmail_stepwise_witness :
  snd (configure_fastmail (P := scripted [reply_ok SESSION_A2])
         ARGS_NEW_TOKEN CONFIGURED)
  = {| api_token := VStr "tok-2"; account_id := VStr "A2";
       session_data := SESSION_A2;
       wire := [session_request (P := scripted [reply_ok SESSION_A2])
                  (VStr "tok-2")] |}.
Proof.
  apply (proj2 (configure_fastmail_stepwise
                  (H := scripted [reply_ok SESSION_A2])
                  ARGS_NEW_TOKEN CONFIGURED) (VStr "tok-2") eq_refl)
    with (response := reply_ok SESSION_A2); reflexivity.
Defined.

(** C3, the claim as written fails: on a server configured with [tok-1]
    and [A1], a reconfiguration with [tok-2] that is refused (401) raises
    and leaves [tok-2] stored next to [A1]; the next [list_mailboxes] sends
    the new credential with the old account identifier. *)
Lemma failed_reconfiguration_mixes_fields :
  let P := scripted [REPLY_DENIED] in
  let after := snd (configure_fastmail (P := P) ARGS_NEW_TOKEN CONFIGURED) in
  fst (configure_fastmail (P := P) ARGS_NEW_TOKEN CONFIGURED)
  = Raise (Exception "Failed to authenticate: denied")
  /\ (api_token CONFIGURED, account_id CONFIGURED) = (VStr "tok-1", VStr "A1")
  /\ (api_token after, account_id after) = (VStr "tok-2", VStr "A1")
  /\ wire (snd (list_mailboxes (P := P) [] after))
     = [session_request (P := P) (VStr "tok-2");
        jmap_post (P := P) (VStr "tok-2") (mailbox_get_calls (VStr "A1"))].
Proof. repeat split. Qed.

(** ** Sending *)

Lemma send_email_calls_lists (account : value) (args : dict)
  (to cc bcc : list value) (subject body : value) :
  dict_lookup args "to" = Some (VList to) ->
  dict_get_default args "cc" (VList []) = VList cc ->
  dict_get_default args "bcc" (VList []) = VList bcc ->
  dict_lookup args "subject" = Some subject ->
  dict_lookup args "body" = Some body ->
  send_email_calls account args
  = Ok (send_calls account
          (email_data (map email_object to) (map email_object cc)
             (map email_object bcc) subject body
             (dict_get_default args "isHtml" (VBool false)))
          (map email_object to) (map email_object cc) (map email_object bcc)).
Proof.
  intros Hto Hcc Hbcc Hs Hb. unfold send_email_calls, subscript.
  rewrite Hto, Hcc, Hbcc, Hs, Hb. reflexivity.
Qed.

Lemma send_email_calls_shape (account : value) (args : dict)
  (method_calls : list value) :
  send_email_calls account args = Ok method_calls ->
  exists draft to_emails cc_emails bcc_emails,
    method_calls = send_calls account draft to_emails cc_emails bcc_emails.
Proof.
  unfold send_email_calls. intros Hc.
  destruct (subscript args "to") as [to|]; [simpl in Hc | discriminate].
  destruct (email_objects to) as [t|]; [simpl in Hc | discriminate].
  destruct (email_objects _) as [c|]; [simpl in Hc | discriminate].
  destruct (email_objects _) as [b|]; [simpl in Hc | discriminate].
  destruct (subscript args "subject") as [s|]; [simpl in Hc | discriminate].
  destruct (subscript args "body") as [bd|]; [simpl in Hc | discriminate].
  injection Hc as <-. eauto.
Qed.

Lemma send_email_run `{Platform} (args : dict) (self : FastMailMCPServer)
  (method_calls : list value) :
  not_configured self = false ->
  send_email_calls (account_id self) args = Ok method_calls ->
  send_email args self
  = (res_bind (jmap_outcome self method_calls) send_email_reply,
     sent self (jmap_post (api_token self) method_calls)).
Proof.
  intros Hc Hcalls. unfold send_email.
  rewrite bind_get_account_id, bind_lift, Hcalls.
  apply (request_then_read _ _ _ Hc).
Qed.

(** C2 (amended). When the reply to a send reports the draft under
    [notCreated], [send_email] returns the failure text that carries the
    server's description. It sends nothing after that reply, but the
    [EmailSubmission/set] call was already issued: it travels in the same
    single request as the [Email/set] call, before any reply is read. *)
Theorem send_email_not_created `{Platform} (args : dict)
  (self : FastMailMCPServer) (method_calls : list value)
  (result email_result not_created description : value) :
  not_configured self = false ->
  send_email_calls (account_id self) args = Ok method_calls ->
  let rq := jmap_post (api_token self) method_calls in
  jmap_outcome self method_calls = Ok result ->
  response_payload result 0 = Ok email_result ->
  method_get email_result "notCreated" = Ok not_created ->
  truthy not_created = true ->
  first_error_description email_result = Ok description ->
  send_email args self
  = (Ok (MARK_FAIL ++ " Failed to create email: " ++ py_str description),
     sent self rq)
  /\ wire (sent self rq) = (wire self ++ [rq])%list
  /\ request_method_names rq = [VStr "Email/set"; VStr "EmailSubmission/set"].
Proof.
  intros Hc Hcalls rq Hres Hpay Hget Htrue Hdesc.
  split; [|split; [reflexivity|]].
  - rewrite (send_email_run _ _ _ Hc Hcalls). fold rq. rewrite Hres.
    unfold res_bind at 1, send_email_reply.
    rewrite Hpay. simpl res_bind. rewrite Hget. simpl res_bind.
    rewrite Htrue, Hdesc. reflexivity.
  - destruct (send_email_calls_shape _ _ _ Hcalls) as (d & t & c & b & ->).
    reflexivity.
Qed.

(** C2, at the reply of the specification: [created] empty and the draft
    not created for [missing subject]. *)
Lemma send_email_not_created_witness :
  let P := scripted [reply_ok RESULT_NOT_CREATED] in
  fst (send_email (P := P) ARGS_SEND CONFIGURED)
  = Ok (MARK_FAIL ++ " Failed to create email: missing subject").
Proof.
  cbv zeta.
  set (P := scripted [reply_ok RESULT_NOT_CREATED]).
  destruct (send_email_calls (account_id CONFIGURED) ARGS_SEND)
    as [method_calls|] eqn:Hcalls; [|discriminate].
  rewrite (proj1 (send_email_not_created (H := P) ARGS_SEND CONFIGURED
                    method_calls RESULT_NOT_CREATED
                    (VDict [("created", VDict []);
                            ("notCreated",
                             VDict [("draft",
                                     VDict [("type", VStr "invalidProperties");
                                            ("description",
                                             VStr "missing subject")])])])
                    (VDict [("draft",
                             VDict [("type", VStr "invalidProperties");
                                    ("description", VStr "missing subject")])])
                    (VStr "missing subject")
                    eq_refl Hcalls eq_refl eq_refl eq_refl eq_refl eq_refl)).
  reflexivity.
Defined.

(** C2, the claim as written fails: in that scenario the failure text is
    returned, yet the one request that went out carries the
    [EmailSubmission/set] call next to the [Email/set] call. *)
Lemma submission_call_already_issued :
  let P := scripted [reply_ok RESULT_NOT_CREATED] in
  fst (send_email (P := P) ARGS_SEND CONFIGURED)
  = Ok (MARK_FAIL ++ " Failed to create email: missing subject")
  /\ map request_method_names
       (wire (snd (send_email (P := P) ARGS_SEND CONFIGURED)))
     = [[VStr "Email/set"; VStr "EmailSubmission/set"]].
Proof. split; reflexivity. Qed.


Lemma send_calls_draft (account : value) (draft : dict)
  (to_emails cc_emails bcc_emails : list value) :
  batch_draft (send_calls account draft to_emails cc_emails bcc_emails)
  = Ok (VDict draft).
Proof. reflexivity. Qed.






(** ** Before configuration *)

(** C9 (amended). On a server that is not configured (the stored
    credential or the stored account identifier is missing or empty), none
    of the six operations performs network I/O: each returns with the
    server object, and so the list of requests sent, as it was. Each fails
    with the not-configured error as soon as it reaches its request, that
    is, unless its own checks of the arguments end it first: [get_emails]
    with neither mailbox id nor name raises its own error, [search_emails]
    without a criterion returns the at-least-one-criterion text, and
    [get_email_body] and [send_email] raise for a missing or ill-typed
    argument. The dispatcher turns the error into its text. *)
Theorem unconfigured_operations `{Platform} (args : dict)
  (self : FastMailMCPServer) :
  not_configured self = true ->
  list_mailboxes args self = (Raise NOT_CONFIGURED, self)
  /\ find_mailbox args self = (Raise NOT_CONFIGURED, self)
  /\ get_emails args self
     = (if truthy (dict_get args "mailboxId")
           || truthy (dict_get args "mailboxName")
        then Raise NOT_CONFIGURED
        else Raise (Exception "Either mailboxId or mailboxName must be provided"),
        self)
  /\ search_emails args self
     = (match search_filter args with
        | [] => Ok NO_CRITERION
        | _ :: _ => Raise NOT_CONFIGURED
        end, self)
  /\ get_email_body args self
     = (match dict_lookup args "emailId" with
        | Some _ => Raise NOT_CONFIGURED
        | None => Raise (KeyError (VStr "emailId"))
        end, self)
  /\ send_email args self
     = (match send_email_calls (account_id self) args with
        | Ok _ => Raise NOT_CONFIGURED
        | Raise e => Raise e
        end, self)
  /\ handle_call_tool "list_mailboxes" args self
     = (Ok "Error: FastMail not configured. Use configure_fastmail first.",
        self).
Proof.
  intros Hc.
  assert (Hlist : list_mailboxes args self = (Raise NOT_CONFIGURED, self)).
  { unfold list_mailboxes. rewrite bind_get_account_id.
    apply (request_refused _ _ _ Hc). }
  repeat split.
  - exact Hlist.
  - unfold find_mailbox. rewrite bind_get_account_id.
    apply (request_refused _ _ _ Hc).
  - unfold get_emails, resolve_mailbox_id. rewrite bind_run.
    destruct (truthy (dict_get args "mailboxId")); simpl orb.
    + cbn [ret]. cbv zeta. rewrite bind_get_account_id.
      apply (request_refused _ _ _ Hc).
    + destruct (truthy (dict_get args "mailboxName")); cbn [negb];
        [|reflexivity].
      rewrite bind_get_account_id, (request_refused _ _ _ Hc). reflexivity.
  - unfold search_emails. destruct (search_filter args) as [|c f].
    + reflexivity.
    + cbn [truthy negb]. cbv zeta. rewrite bind_get_account_id.
      apply (request_refused _ _ _ Hc).
  - unfold get_email_body, subscript. rewrite bind_lift.
    destruct (dict_lookup args "emailId"); [|reflexivity].
    cbv zeta. rewrite bind_get_account_id.
    apply (request_refused _ _ _ Hc).
  - unfold send_email. rewrite bind_get_account_id, bind_lift.
    destruct (send_email_calls (account_id self) args); [|reflexivity].
    apply (request_refused _ _ _ Hc).
  - unfold handle_call_tool. cbn [String.eqb Ascii.eqb Bool.eqb andb].
    rewrite Hlist. reflexivity.
Qed.

(** C9, on the server as created: listing mailboxes and fetching by
    mailbox id fail with the not-configured error and send nothing. *)
Lemma unconfigured_operations_witness :
  list_mailboxes (P := offline) [] init = (Raise NOT_CONFIGURED, init)
  /\ get_emails (P := offline) ARGS_INBOX init = (Raise NOT_CONFIGURED, init).
Proof.
  split.
  - apply (unconfigured_operations (H := offline) [] init eq_refl).
  - apply (proj1 (proj2 (proj2 (unconfigured_operations (H := offline)
                                  ARGS_INBOX init eq_refl)))).
Defined.

(** C9, the claim as written fails: on the server as created, [get_emails]
    without a mailbox fails with another error than the not-configured
    one, and [search_emails] without a criterion does not fail with it
    either. *)
Lemma unconfigured_but_other_outcome :
  not_configured init = true
  /\ get_emails (P := offline) [] init
     = (Raise (Exception "Either mailboxId or mailboxName must be provided"),
        init)
  /\ search_emails (P := offline) [] init = (Ok NO_CRITERION, init)
  /\ fst (get_emails (P := offline) [] init) <> Raise NOT_CONFIGURED
  /\ fst (search_emails (P := offline) [] init) <> Raise NOT_CONFIGURED.
Proof. repeat split; discriminate. Qed.

(** * Further properties of the handlers *)

(** ** What no tool but the configuration changes *)
















(** ** Failures of the round trip *)

Lemma jmap_outcome_http_error `{Platform} (self : FastMailMCPServer)
  (method_calls : list value) (response : http_response) :
  transport (wire self) (jmap_post (api_token self) method_calls) = Ok response ->
  status_code response <> 200 ->
  jmap_outcome self method_calls
  = Raise (Exception ("JMAP API error: " ++ text response)).
Proof.
  intros Ht Hs. unfold jmap_outcome, jmap_result. rewrite Ht. simpl.
  apply Z.eqb_neq in Hs. rewrite Hs. reflexivity.
Qed.

Lemma caught_request_failed `{Platform} (m : M string)
  (self : FastMailMCPServer) (method_calls : list value)
  (read : value -> res string) (msg : string) :
  m self = (res_bind (jmap_outcome self method_calls) read,
            sent self (jmap_post (api_token self) method_calls)) ->
  jmap_outcome self method_calls = Raise (Exception msg) ->
  caught m self
  = (Ok ("Error: " ++ msg), sent self (jmap_post (api_token self) method_calls)).
Proof. unfold caught. intros -> ->. reflexivity. Qed.

(** X2. On a configured server, when the network answers a tool's request
    with a status other than 200, the tool's reply is the text
    [Error: JMAP API error: ] followed by the body of the answer, and
    that request is the only one sent: nothing of the answer is read as a
    result, and [get_emails] by name, whose mailbox lookup failed so,
    does not go on to send its batch. *)
Theorem http_error_surfaces `{Platform} (args : dict)
  (self : FastMailMCPServer) (response : http_response) :
  not_configured self = false ->
  (forall rq, transport (wire self) rq = Ok response) ->
  status_code response <> 200 ->
  let failure : res string :=
    Ok ("Error: JMAP API error: " ++ text response) in
  let posted method_calls :=
    sent self (jmap_post (api_token self) method_calls) in
  let lookup := mailbox_get_calls (account_id self) in
  handle_call_tool "list_mailboxes" args self = (failure, posted lookup)
  /\ handle_call_tool "find_mailbox" args self = (failure, posted lookup)
  /\ (truthy (dict_get args "mailboxId") = false ->
      truthy (dict_get args "mailboxName") = true ->
      handle_call_tool "get_emails" args self = (failure, posted lookup))
  /\ (truthy (dict_get args "mailboxId") = true ->
      exists method_calls,
        handle_call_tool "get_emails" args self = (failure, posted method_calls))
  /\ (search_filter args <> [] ->
      exists method_calls,
        handle_call_tool "search_emails" args self
        = (failure, posted method_calls))
  /\ (dict_mem args "emailId" = true ->
      exists method_calls,
        handle_call_tool "get_email_body" args self
        = (failure, posted method_calls))
  /\ (forall method_calls,
      send_email_calls (account_id self) args = Ok method_calls ->
      handle_call_tool "send_email" args self = (failure, posted method_calls)).
Proof.
  intros Hc Ht Hs. cbv zeta.
  assert (Hfail : forall method_calls,
             jmap_outcome self method_calls
             = Raise (Exception ("JMAP API error: " ++ text response))).
  { intros. apply jmap_outcome_http_error; auto. }
  repeat split.
  - change (handle_call_tool "list_mailboxes" args) with (caught (list_mailboxes args)).
    eapply caught_request_failed; [|apply Hfail].
    unfold list_mailboxes. rewrite bind_get_account_id.
    apply (request_then_read _ _ _ Hc).
  - change (handle_call_tool "find_mailbox" args) with (caught (find_mailbox args)).
    eapply caught_request_failed; [|apply Hfail].
    unfold find_mailbox. rewrite bind_get_account_id.
    apply (request_then_read _ _ _ Hc).
  - intros Hid Hname.
    change (handle_call_tool "get_emails" args) with (caught (get_emails args)).
    unfold caught, get_emails, resolve_mailbox_id. rewrite Hid, Hname.
    cbn [negb]. rewrite bind_run, bind_get_account_id.
    rewrite (request_then_read _ _ _ Hc), Hfail. reflexivity.
  - intros Hid. eexists.
    change (handle_call_tool "get_emails" args) with (caught (get_emails args)).
    eapply caught_request_failed; [|apply Hfail].
    apply (get_emails_resolved args self self _
             (resolve_mailbox_id_given _ _ _ Hid) Hc).
  - intros Hf. eexists.
    change (handle_call_tool "search_emails" args)
      with (caught (search_emails args)).
    eapply caught_request_failed; [|apply Hfail].
    apply (search_emails_run _ _ Hf Hc).
  - intros Hid. unfold dict_mem in Hid.
    destruct (dict_lookup args "emailId") as [email_id|] eqn:Hemail;
      [|discriminate].
    eexists.
    change (handle_call_tool "get_email_body" args)
      with (caught (get_email_body args)).
    eapply caught_request_failed; [|apply Hfail].
    unfold get_email_body, subscript. rewrite Hemail.
    rewrite bind_lift. cbv zeta. rewrite bind_get_account_id.
    apply (request_then_read _ _ _ Hc).
  - intros method_calls Hcalls.
    change (handle_call_tool "send_email" args) with (caught (send_email args)).
    eapply caught_request_failed; [|apply Hfail].
    apply (send_email_run _ _ _ Hc Hcalls).
Qed.

(** X2, at a server that answers 401 to a listing of the mailboxes. *)
Lemma http_error_surfaces_witness :
  handle_call_tool (P := scripted [REPLY_DENIED]) "list_mailboxes" [] CONFIGURED
  = (Ok "Error: JMAP API error: denied",
     sent CONFIGURED
       (jmap_post (P := scripted [REPLY_DENIED]) (VStr "tok-1")
          (mailbox_get_calls (VStr "A1")))).
Proof.
  apply (http_error_surfaces (H := scripted [REPLY_DENIED]) [] CONFIGURED
           REPLY_DENIED eq_refl (fun _ => eq_refl) ltac:(discriminate)).
Defined.

(** ** The catalogue and the dispatcher *)

Lemma handle_call_tool_unknown `{Platform} (name : string) (args : dict)
  (self : FastMailMCPServer) :
  ~ In name DISPATCHED ->
  handle_call_tool name args self
  = (Ok ("Error: Unknown tool: " ++ name), self).
Proof.
  intros Hout. unfold handle_call_tool.
  repeat match goal with
         | |- context [(name =? ?t)%string] =>
             destruct (String.eqb_spec name t) as [->|_];
             [exfalso; apply Hout; unfold DISPATCHED; simpl; tauto|]
         end.
  reflexivity.
Qed.

(** X3. The catalogue [handle_list_tools] advertises exactly the tools
    [handle_call_tool] implements, each once: a call by a listed name
    runs the handler of that name inside the dispatcher's
    [try]/[except], and a call by any other name is answered
    [Error: Unknown tool: ] and the name, with nothing sent and
    nothing changed. *)
Theorem catalogue_matches_dispatcher `{Platform} (name : string) :
  map types.name handle_list_tools = map fst HANDLERS
  /\ NoDup (map types.name handle_list_tools)
  /\ (forall handler,
      In (name, handler) HANDLERS ->
      forall args, handle_call_tool name args = caught (handler args))
  /\ (~ In name (map types.name handle_list_tools) ->
      forall args self,
        handle_call_tool name args self
        = (Ok ("Error: Unknown tool: " ++ name), self)).
Proof.
  split; [reflexivity|]. split; [|split].
  - simpl. repeat constructor; simpl; intuition discriminate.
  - intros handler Hin args. unfold HANDLERS in Hin. simpl in Hin.
    repeat (destruct Hin as [Hin|Hin];
            [injection Hin as <- <-; reflexivity|]).
    contradiction.
  - intros Hout args self. apply handle_call_tool_unknown. exact Hout.
Qed.

(** X3, at a tool the server does not have. *)
Lemma catalogue_matches_dispatcher_witness :
  handle_call_tool (P := offline) "delete_email" [] CONFIGURED
  = (Ok "Error: Unknown tool: delete_email", CONFIGURED).
Proof.
  apply (proj2 (proj2 (proj2 (catalogue_matches_dispatcher (H := offline)
                                "delete_email")))).
  simpl. intuition discriminate.
Defined.

Lemma dict_mem_false_lookup (d : dict) (k : string) :
  dict_mem d k = false -> dict_lookup d k = None.
Proof. unfold dict_mem. destruct (dict_lookup d k); [discriminate | auto]. Qed.

Ltac args_lookups Habs :=
  unfold dict_get, dict_get_default, subscript;
  rewrite ?dict_lookup_set;
  cbn [String.eqb Ascii.eqb Bool.eqb andb];
  rewrite ?Habs.

Lemma search_filter_set_other `{Platform} (args : dict) (field : string)
  (v : value) :
  ~ In field (map fst CRITERIA) ->
  search_filter (dict_set args field v) = search_filter args.
Proof.
  intros Hout. unfold search_filter, dict_get, dict_get_default.
  rewrite !dict_lookup_set.
  repeat match goal with
         | |- context [(field =? ?k)%string] =>
             destruct (String.eqb_spec field k) as [->|_];
             [exfalso; apply Hout; unfold CRITERIA; simpl; tauto|]
         end.
  reflexivity.
Qed.

(** X4. Every default the catalogue advertises for an argument is the
    default the handler applies: leaving the argument out and passing
    the advertised default make the tool send the same requests and
    leave the same object, and, for every tool whose modelled reply does
    not depend on the rendering of the arguments, give the same reply.
    The advertised defaults are a limit of 20 and no bodies for
    [get_emails] and [search_emails], format [text] for
    [get_email_body] and plain text for [send_email]. *)
Theorem schema_defaults_applied `{Platform} (tool field : string)
  (default : value) (args : dict) (self : FastMailMCPServer) :
  In (tool, field, default) catalogue_defaults ->
  dict_mem args field = false ->
  catalogue_defaults
  = [("get_emails", "limit", VInt 20);
     ("get_emails", "includeBody", VBool false);
     ("search_emails", "limit", VInt 20);
     ("search_emails", "includeBody", VBool false);
     ("get_email_body", "format", VStr "text");
     ("send_email", "isHtml", VBool false)]
  /\ snd (handle_call_tool tool (dict_set args field default) self)
     = snd (handle_call_tool tool args self)
  /\ (tool <> "search_emails" ->
      handle_call_tool tool (dict_set args field default) self
      = handle_call_tool tool args self).
Proof.
  intros Hin Habs. apply dict_mem_false_lookup in Habs.
  split; [reflexivity|].
  assert (Hsnd : forall m : M string, snd (caught m self) = snd (m self)).
  { intros m. unfold caught. destruct (m self) as [[out|e] s]; reflexivity. }
  assert (Hread : forall (C : list value) (R : value -> res string),
             snd (bind (make_jmap_request C) (fun r => lift (R r)) self)
             = snd (make_jmap_request C self)).
  { intros C R. apply bind_after; reflexivity. }
  assert (Hother : forall (P Q : Prop), P -> Q -> P /\ (tool <> "search_emails" -> Q))
    by tauto.
  simpl in Hin.
  repeat (destruct Hin as [Hin|Hin]; [injection Hin as <- <- <-|]);
    try contradiction.
  - apply Hother; [f_equal|];
      unfold handle_call_tool; cbn [String.eqb Ascii.eqb Bool.eqb andb];
      unfold get_emails; args_lookups Habs; reflexivity.
  - apply Hother; [f_equal|];
      unfold handle_call_tool; cbn [String.eqb Ascii.eqb Bool.eqb andb];
      unfold get_emails; args_lookups Habs; reflexivity.
  - split; [|congruence].
    change (snd (caught (search_emails (dict_set args "limit" (VInt 20))) self)
            = snd (caught (search_emails args) self)).
    rewrite !Hsnd. unfold search_emails.
    rewrite search_filter_set_other by (simpl; intuition discriminate).
    destruct (negb (truthy (VDict (search_filter args)))); [reflexivity|].
    cbv zeta. rewrite !bind_get_account_id, !Hread.
    args_lookups Habs. reflexivity.
  - split; [|congruence].
    change (snd (caught (search_emails
                           (dict_set args "includeBody" (VBool false))) self)
            = snd (caught (search_emails args) self)).
    rewrite !Hsnd. unfold search_emails.
    rewrite search_filter_set_other by (simpl; intuition discriminate).
    destruct (negb (truthy (VDict (search_filter args)))); [reflexivity|].
    cbv zeta. rewrite !bind_get_account_id, !Hread.
    args_lookups Habs. reflexivity.
  - apply Hother; [f_equal|];
      unfold handle_call_tool; cbn [String.eqb Ascii.eqb Bool.eqb andb];
      unfold get_email_body; args_lookups Habs; reflexivity.
  - apply Hother; [f_equal|];
      unfold handle_call_tool; cbn [String.eqb Ascii.eqb Bool.eqb andb];
      unfold send_email, send_email_calls; args_lookups Habs; reflexivity.
Qed.

(** X4, at [get_emails] without a limit. *)
Lemma schema_defaults_applied_witness :
  handle_call_tool (P := offline) "get_emails"
    (dict_set ARGS_INBOX "limit" (VInt 20)) CONFIGURED
  = handle_call_tool (P := offline) "get_emails" ARGS_INBOX CONFIGURED.
Proof.
  apply (schema_defaults_applied (H := offline) "get_emails" "limit" (VInt 20)
           ARGS_INBOX CONFIGURED).
  - simpl. tauto.
  - reflexivity.
  - discriminate.
Defined.

Lemma send_email_calls_missing (account : value) (args : dict) (r : string) :
  In r ["to"; "subject"; "body"] ->
  dict_lookup args r = None ->
  exists e, send_email_calls account args = Raise e
            /\ (r = "to" -> e = KeyError (VStr "to")).
Proof.
  intros Hr Habs. unfold send_email_calls, subscript.
  simpl in Hr. destruct Hr as [<-|[<-|[<-|[]]]].
  - rewrite Habs. eexists. split; [reflexivity | auto].
  - destruct (dict_lookup args "to") as [to|];
      [|eexists; split; [reflexivity | discriminate]].
    simpl. destruct (email_objects to);
      [|eexists; split; [reflexivity | discriminate]].
    simpl. destruct (email_objects _);
      [|eexists; split; [reflexivity | discriminate]].
    simpl. destruct (email_objects _);
      [|eexists; split; [reflexivity | discriminate]].
    simpl. rewrite Habs. eexists; split; [reflexivity | discriminate].
  - destruct (dict_lookup args "to") as [to|];
      [|eexists; split; [reflexivity | discriminate]].
    simpl. destruct (email_objects to);
      [|eexists; split; [reflexivity | discriminate]].
    simpl. destruct (email_objects _);
      [|eexists; split; [reflexivity | discriminate]].
    simpl. destruct (email_objects _);
      [|eexists; split; [reflexivity | discriminate]].
    simpl. destruct (dict_lookup args "subject");
      [|eexists; split; [reflexivity | discriminate]].
    simpl. rewrite Habs. eexists; split; [reflexivity | discriminate].
Qed.

(** X5. The catalogue marks as required [apiToken] for
    [configure_fastmail], [emailId] for [get_email_body] and [to],
    [subject], [body] for [send_email], and nothing for the other tools.
    The handlers enforce this by their own lookups only: a call that
    lacks a required argument is answered with an [Error: ] text before
    anything is sent or stored, whether or not the server is configured;
    when the missing argument is the first one the schema requires, the
    text is that of a [KeyError] for it. *)
Theorem required_arguments_enforced `{Platform} (t : types.Tool) (r : string)
  (args : dict) (self : FastMailMCPServer) :
  In t handle_list_tools ->
  In r (schema_required (types.inputSchema t)) ->
  dict_mem args r = false ->
  map (fun t => (types.name t, schema_required (types.inputSchema t)))
    handle_list_tools
  = [("configure_fastmail", ["apiToken"]); ("list_mailboxes", []);
     ("find_mailbox", []); ("get_emails", []); ("search_emails", []);
     ("get_email_body", ["emailId"]);
     ("send_email", ["to"; "subject"; "body"])]
  /\ exists e,
      handle_call_tool (types.name t) args self
      = (Ok ("Error: " ++ exn_str e), self)
      /\ (r = hd r (schema_required (types.inputSchema t)) ->
          e = KeyError (VStr r)).
Proof.
  intros Ht Hr Habs. apply dict_mem_false_lookup in Habs.
  split; [reflexivity|].
  simpl in Ht.
  repeat (destruct Ht as [<-|Ht]); try contradiction;
    cbn in Hr; try contradiction.
  - destruct Hr as [<-|[]]. eexists. split; [|reflexivity].
    unfold handle_call_tool. cbn [types.name String.eqb Ascii.eqb Bool.eqb andb].
    unfold configure_fastmail, subscript. rewrite bind_lift, Habs. reflexivity.
  - destruct Hr as [<-|[]]. eexists. split; [|reflexivity].
    unfold handle_call_tool. cbn [types.name String.eqb Ascii.eqb Bool.eqb andb].
    unfold get_email_body, subscript. rewrite bind_lift, Habs. reflexivity.
  - destruct (send_email_calls_missing (account_id self) args r Hr Habs)
      as (e & He & Hfirst).
    exists e. split.
    + unfold handle_call_tool.
      cbn [types.name String.eqb Ascii.eqb Bool.eqb andb].
      unfold send_email. rewrite bind_get_account_id, bind_lift, He.
      reflexivity.
    + intros Hfst. cbn in Hfst. rewrite (Hfirst Hfst), Hfst. reflexivity.
Qed.

(** X5, at a send without recipients on a configured server. *)
Lemma required_arguments_enforced_witness :
  exists e,
    handle_call_tool (P := offline) "send_email"
      [("subject", VStr "s"); ("body", VStr "b")] CONFIGURED
    = (Ok ("Error: " ++ exn_str (H := offline) e), CONFIGURED)
    /\ e = KeyError (VStr "to").
Proof.
  destruct (required_arguments_enforced (H := offline)
              (nth 6 handle_list_tools
                 (types.mkTool "" "" VNone))
              "to" [("subject", VStr "s"); ("body", VStr "b")] CONFIGURED
              ltac:(simpl; tauto) ltac:(simpl; tauto) eq_refl)
    as (_ & e & Hrun & Hkey).
  exists e. split; [exact Hrun | apply Hkey; reflexivity].
Defined.

(** ** Configuring, then operating *)




(** X7. The account of a configuration: a non-empty [accountId] is
    stored as given, unchecked against the session, which may name
    another primary account or none; an absent or empty [accountId]
    makes the primary mail account of the session the stored one. In
    both cases the session is fetched, with the new token. *)
Theorem configure_fastmail_account `{Platform} (args : dict)
  (self : FastMailMCPServer) (token : value) (response : http_response)
  (data : value) :
  dict_lookup args "apiToken" = Some token ->
  transport (wire self) (session_request token) = Ok response ->
  status_code response = 200 ->
  json response = Ok data ->
  let after := snd (configure_fastmail args self) in
  wire after = (wire self ++ [session_request token])%list
  /\ (truthy (dict_get args "accountId") = true ->
      account_id after = dict_get args "accountId")
  /\ (truthy (dict_get args "accountId") = false ->
      forall primary account,
        getitem data "primaryAccounts" = Ok primary ->
        getitem primary "urn:ietf:params:jmap:mail" = Ok account ->
        account_id after = account).
Proof.
  intros Htok Ht Hs Hj. cbv zeta.
  rewrite (configure_fastmail_run args self token Htok). cbv zeta.
  rewrite Ht, Hs, Hj. cbn [negb Z.eqb Pos.eqb].
  unfold chosen_account, subscript, dict_get, dict_get_default.
  destruct (dict_lookup args "accountId") as [given|] eqn:Hgiven.
  - destruct (truthy given) eqn:Hg.
    + repeat split; intros; try discriminate; reflexivity.
    + split; [|split]; [| discriminate |].
      * destruct (getitem data "primaryAccounts") as [primary|]; simpl;
          [destruct (getitem primary _)|]; reflexivity.
      * intros _ primary account -> . simpl. intros ->. reflexivity.
  - simpl truthy. cbv iota. split; [|split]; [| discriminate |].
    + destruct (getitem data "primaryAccounts") as [primary|]; simpl;
        [destruct (getitem primary _)|]; reflexivity.
    + intros _ primary account -> . simpl. intros ->. reflexivity.
Qed.

(** X7, at a configuration that names account [A7] against a session
    whose primary mail account is [A2]. *)
Lemma configure_fastmail_account_witness :
  account_id (snd (configure_fastmail (P := scripted [reply_ok SESSION_A2])
                     ARGS_NEW_ACCOUNT init)) = VStr "A7".
Proof.
  apply (proj1 (proj2 (configure_fastmail_account
                         (H := scripted [reply_ok SESSION_A2])
                         ARGS_NEW_ACCOUNT init (VStr "tok-2")
                         (reply_ok SESSION_A2) SESSION_A2
                         eq_refl eq_refl eq_refl eq_refl))).
  reflexivity.
Defined.

(** ** Resolving a mailbox by name *)

Lemma first_mailbox_named_step `{Platform} (mb : value) (rest : list value)
  (wanted name : string) :
  getitem mb "name" = Ok (VStr name) ->
  first_mailbox_named (mb :: rest) (VStr wanted)
  = if (str_lower name =? str_lower wanted)%string then getitem mb "id"
    else first_mailbox_named rest (VStr wanted).
Proof. intros Hn. simpl. rewrite Hn. reflexivity. Qed.

Lemma first_mailbox_named_absent `{Platform} (mailboxes : list value)
  (wanted : string) :
  Forall (other_name wanted) mailboxes ->
  first_mailbox_named mailboxes (VStr wanted)
  = Raise (Exception ("Mailbox '" ++ wanted ++ "' not found")).
Proof.
  induction 1 as [|mb rest (name & Hname & Hne) _ IH]; [reflexivity|].
  rewrite (first_mailbox_named_step _ _ _ _ Hname).
  apply String.eqb_neq in Hne. rewrite Hne. exact IH.
Qed.

(** X8. Looking a mailbox up by name returns the id of the first
    mailbox of the list whose name equals the wanted one up to
    [str.lower], every mailbox before it having a string name that
    differs; and when every mailbox of the list has a string name that
    differs, the lookup raises [Mailbox '...' not found] with the name
    as it was given. *)
Theorem first_mailbox_named_first `{Platform} (mailboxes : list value)
  (wanted : string) (id : value) :
  (first_mailbox_named mailboxes (VStr wanted) = Ok id <->
   exists before mb after name,
     mailboxes = (before ++ mb :: after)%list
     /\ Forall (other_name wanted) before
     /\ getitem mb "name" = Ok (VStr name)
     /\ str_lower name = str_lower wanted
     /\ getitem mb "id" = Ok id)
  /\ (Forall (other_name wanted) mailboxes ->
      first_mailbox_named mailboxes (VStr wanted)
      = Raise (Exception ("Mailbox '" ++ wanted ++ "' not found"))).
Proof.
  split.
  - induction mailboxes as [|mb0 rest IH].
    + split; [discriminate|].
      intros (before & mb & after & name & Heq & _).
      destruct before; discriminate.
    + split.
      * intros Hfound. simpl in Hfound.
        destruct (getitem mb0 "name") as [[| | |name| |]|] eqn:Hname;
          try discriminate.
        simpl in Hfound.
        destruct (String.eqb_spec (str_lower name) (str_lower wanted))
          as [Heq|Hne].
        -- exists [], mb0, rest, name. repeat split; auto.
        -- apply IH in Hfound
             as (before & mb & after & name' & -> & Hall & Hrest).
           exists (mb0 :: before), mb, after, name'.
           repeat split; try tauto.
           constructor; [|assumption]. exists name. auto.
      * intros (before & mb & after & name & Heq & Hall & Hname & Hlow & Hid).
        destruct before as [|b before]; simpl in Heq;
          injection Heq as -> ->.
        -- rewrite (first_mailbox_named_step _ _ _ _ Hname).
           apply String.eqb_eq in Hlow. rewrite Hlow. exact Hid.
        -- inversion Hall as [|? ? (name0 & Hname0 & Hne) Hall']; subst.
           rewrite (first_mailbox_named_step _ _ _ _ Hname0).
           apply String.eqb_neq in Hne. rewrite Hne.
           apply IH. exists before, mb, after, name. auto.
  - apply first_mailbox_named_absent.
Qed.

(** X8, at two mailboxes named [Inbox], of which the first is found,
    and at a name no mailbox has. *)
Lemma first_mailbox_named_first_witness :
  first_mailbox_named (P := offline)
    [VDict [("id", VStr "M0"); ("name", VStr "Sent")];
     VDict [("id", VStr "M1"); ("name", VStr "Inbox")];
     VDict [("id", VStr "M2"); ("name", VStr "Inbox")]] (VStr "Inbox")
  = Ok (VStr "M1")
  /\ first_mailbox_named (P := offline)
       [VDict [("id", VStr "M0"); ("name", VStr "Sent")]] (VStr "Inbox")
     = Raise (Exception "Mailbox 'Inbox' not found").
Proof.
  split.
  - apply (proj1 (first_mailbox_named_first (H := offline) _ "Inbox" _)).
    exists [VDict [("id", VStr "M0"); ("name", VStr "Sent")]],
      (VDict [("id", VStr "M1"); ("name", VStr "Inbox")]),
      [VDict [("id", VStr "M2"); ("name", VStr "Inbox")]], "Inbox".
    repeat split.
    constructor; [|constructor]. exists "Sent". split; [reflexivity|].
    discriminate.
  - apply (proj2 (first_mailbox_named_first (H := offline) _ "Inbox" VNone)).
    constructor; [|constructor]. exists "Sent". split; [reflexivity|].
    discriminate.
Defined.



(** ** The outcome of a send *)




(** ** The draft of a send *)

(** X11. The draft a send creates holds [to], [subject] and
    [bodyValues], then exactly one of [htmlBody] and [textBody], by the
    truth of [isHtml] (plain text when absent), with the body typed
    accordingly, then [cc] and [bcc] only when their lists are not empty;
    the subject and the body are stored as given. *)
Theorem send_email_draft (account : value) (args : dict)
  (to cc bcc : list value) (subject body : value) :
  dict_lookup args "to" = Some (VList to) ->
  dict_get_default args "cc" (VList []) = VList cc ->
  dict_get_default args "bcc" (VList []) = VList bcc ->
  dict_lookup args "subject" = Some subject ->
  dict_lookup args "body" = Some body ->
  let is_html := truthy (dict_get_default args "isHtml" (VBool false)) in
  let part := if is_html then "htmlBody" else "textBody" in
  let mime := VStr (if is_html then "text/html" else "text/plain") in
  exists method_calls draft,
    send_email_calls account args = Ok method_calls
    /\ batch_draft method_calls = Ok (VDict draft)
    /\ dict_keys draft
       = (["to"; "subject"; "bodyValues"; part]
          ++ key_unless_empty "cc" cc ++ key_unless_empty "bcc" bcc)%list
    /\ dict_lookup draft "to" = Some (VList (map email_object to))
    /\ dict_lookup draft "subject" = Some subject
    /\ dict_lookup draft "bodyValues"
       = Some (VDict [("body1", VDict [("value", body); ("type", mime)])])
    /\ dict_lookup draft part
       = Some (VList [VDict [("partId", VStr "body1"); ("type", mime)]])
    /\ (cc <> [] -> dict_lookup draft "cc" = Some (VList (map email_object cc)))
    /\ (bcc <> [] ->
        dict_lookup draft "bcc" = Some (VList (map email_object bcc))).
Proof.
  intros Hto Hcc Hbcc Hs Hb. cbv zeta.
  rewrite (send_email_calls_lists account args _ _ _ _ _ Hto Hcc Hbcc Hs Hb).
  do 2 eexists. split; [reflexivity|]. split; [apply send_calls_draft|].
  unfold email_data.
  destruct (truthy (dict_get_default args "isHtml" (VBool false)));
    destruct cc as [|c cc]; destruct bcc as [|b bcc];
    cbn [map truthy key_unless_empty app];
    repeat split; intros; try congruence; reflexivity.
Qed.

(** X11, at an HTML message with a blind copy and no copy. *)
Lemma send_email_draft_witness :
  exists method_calls draft,
    send_email_calls (VStr "A1") ARGS_SEND_HTML = Ok method_calls
    /\ batch_draft method_calls = Ok (VDict draft)
    /\ dict_keys draft = ["to"; "subject"; "bodyValues"; "htmlBody"; "bcc"].
Proof.
  destruct (send_email_draft (VStr "A1") ARGS_SEND_HTML
              [VStr "a@example.org"] [] [VStr "b@example.org"]
              (VStr "s") (VStr "<p>hello</p>")
              eq_refl eq_refl eq_refl eq_refl eq_refl)
    as (method_calls & draft & Hcalls & Hdraft & Hkeys & _).
  exists method_calls, draft. repeat split; assumption.
Defined.

(** ** Fetching one email *)

(** X12. [get_email_body] with an [emailId], on a configured server,
    sends one request with the single call [Email/get], labelled [g], for
    the literal id list holding that id (no back-reference) and for
    properties that include the body parts whatever the format asked;
    when the list of the reply is empty, or otherwise false, the reply is
    the [Email not found.] text and nothing is rendered. *)
Theorem get_email_body_request `{Platform} (args : dict)
  (self : FastMailMCPServer) (email_id : value) :
  dict_lookup args "emailId" = Some email_id ->
  not_configured self = false ->
  exists arguments properties,
    let method_calls := [VList [VStr "Email/get"; VDict arguments; VStr "g"]] in
    snd (get_email_body args self)
    = sent self (jmap_post (api_token self) method_calls)
    /\ dict_lookup arguments "accountId" = Some (account_id self)
    /\ dict_lookup arguments "ids" = Some (VList [email_id])
    /\ dict_lookup arguments "#ids" = None
    /\ dict_lookup arguments "properties" = Some (VList properties)
    /\ incl [VStr "bodyValues"; VStr "textBody"; VStr "htmlBody"] properties
    /\ (forall result emails,
        jmap_outcome self method_calls = Ok result ->
        response_list result 0 = Ok emails ->
        truthy emails = false ->
        fst (get_email_body args self) = Ok (MARK_FAIL ++ " Email not found.")).
Proof.
  intros Hid Hc.
  assert (Hrun := fun calls read => request_then_read (A := string) calls read
                                      self Hc).
  unfold get_email_body, subscript. rewrite Hid, bind_lift. cbv zeta.
  rewrite bind_get_account_id, Hrun. cbn [fst snd].
  do 2 eexists. cbv zeta. split; [reflexivity|].
  repeat split.
  - intros x Hx. simpl in Hx. simpl. tauto.
  - intros result emails -> Hlist Hfalse. simpl res_bind.
    rewrite Hlist. simpl res_bind. rewrite Hfalse. reflexivity.
Qed.

(** X12, at an email the server does not have. *)
Lemma get_email_body_request_witness :
  let P :=
    scripted [reply_ok
                (VDict [("methodResponses",
                         VList [VList [VStr "Email/get";
                                       VDict [("list", VList [])];
                                       VStr "g"]])])] in
  fst (get_email_body (P := P) [("emailId", VStr "E404")] CONFIGURED)
  = Ok (MARK_FAIL ++ " Email not found.").
Proof.
  cbv zeta.
  match goal with
  | |- fst (get_email_body (P := ?P) _ _) = _ =>
      destruct (get_email_body_request (H := P) [("emailId", VStr "E404")]
                  CONFIGURED (VStr "E404") eq_refl eq_refl)
        as (arguments & properties & _ & _ & _ & _ & _ & _ & Hempty)
  end.
  apply (Hempty _ (VList []) eq_refl eq_refl eq_refl).
Defined.

(** ** Selecting mailboxes *)

Lemma mailboxes_with_role_filter (mailboxes : list value) (role : value) :
  Forall is_dict mailboxes ->
  mailboxes_with_role mailboxes role = Ok (filter (role_is role) mailboxes).
Proof.
  induction 1 as [|mb rest (d & ->) _ IH]; [reflexivity|].
  simpl. rewrite IH. simpl. destruct (py_eq (dict_get d "role") role);
    reflexivity.
Qed.

Lemma py_eq_none_truthy (role : value) :
  truthy role = true -> py_eq VNone role = false.
Proof. destruct role; simpl; congruence. Qed.

(** X13. The mailboxes [list_mailboxes] lists: without a role, or with
    an empty one, the list of the reply as it is; with a role, the
    mailboxes of the reply whose role equals it, in the order of the
    reply, so that a mailbox without role is never listed then; and a
    reply entry that is not a JSON object makes the filtering raise
    [AttributeError]. *)
Theorem listed_mailboxes_by_role (args : dict) (mailboxes : list value) :
  (truthy (dict_get args "role") = false ->
   forall reply, listed_mailboxes args reply = Ok reply)
  /\ (truthy (dict_get args "role") = true ->
      (Forall is_dict mailboxes ->
       listed_mailboxes args (VList mailboxes)
       = Ok (VList (filter (role_is (dict_get args "role")) mailboxes)))
      /\ (forall d, dict_get d "role" = VNone ->
          role_is (dict_get args "role") (VDict d) = false)
      /\ (forall before mb after,
          mailboxes = (before ++ mb :: after)%list ->
          Forall is_dict before -> ~ is_dict mb ->
          listed_mailboxes args (VList mailboxes)
          = Raise (AttributeError "get"))).
Proof.
  unfold listed_mailboxes. split.
  - intros ->. reflexivity.
  - intros Hrole. rewrite Hrole. cbn [iterate res_bind]. repeat split.
    + intros Hall. rewrite (mailboxes_with_role_filter _ _ Hall). reflexivity.
    + intros d Hnone. simpl. rewrite Hnone. apply py_eq_none_truthy, Hrole.
    + intros before mb after -> Hbefore Hmb.
      induction Hbefore as [|b before (d & ->) _ IH]; simpl.
      * destruct mb; try reflexivity. exfalso. apply Hmb. eexists. reflexivity.
      * destruct (mailboxes_with_role (before ++ mb :: after) _) eqn:Hrest;
          [discriminate IH|]. simpl. simpl in IH. congruence.
Qed.

(** X13, at a listing by role [inbox] of three mailboxes. *)
Lemma listed_mailboxes_by_role_witness :
  listed_mailboxes [("role", VStr "inbox")] (VList MAILBOXES3)
  = Ok (VList [VDict [("id", VStr "M1"); ("name", VStr "Inbox");
                      ("role", VStr "inbox")]]).
Proof.
  apply (proj1 (proj2 (listed_mailboxes_by_role [("role", VStr "inbox")]
                         MAILBOXES3) eq_refl)).
  repeat constructor; eexists; reflexivity.
Defined.

Lemma mailbox_found_matches `{Platform} (name_search : string)
  (role_search mb : value) :
  named_mailbox mb ->
  mailbox_found name_search role_search mb
  = Ok (mailbox_matches name_search role_search mb).
Proof.
  intros (d & name & -> & Hname).
  unfold mailbox_found, mailbox_matches, getitem, subscript, method_get.
  rewrite Hname.
  destruct (truthy role_search); cbn [res_bind andb orb];
    [destruct (py_eq (dict_get d "role") role_search); cbn [orb];
     [reflexivity|]|];
    cbn [truthy]; destruct (name_search =? "")%string; reflexivity.
Qed.

Lemma found_among_filter `{Platform} (mailboxes : list value)
  (name_search : string) (role_search : value) :
  Forall named_mailbox mailboxes ->
  found_among mailboxes name_search role_search
  = Ok (filter (mailbox_matches name_search role_search) mailboxes).
Proof.
  induction 1 as [|mb rest Hmb _ IH]; [reflexivity|].
  simpl. rewrite (mailbox_found_matches _ _ _ Hmb), IH. simpl.
  destruct (mailbox_matches name_search role_search mb); reflexivity.
Qed.

Lemma found_among_nothing `{Platform} (mailboxes : list value)
  (role_search : value) :
  truthy role_search = false ->
  found_among mailboxes "" role_search = Ok [].
Proof.
  intros Hrole. induction mailboxes as [|mb rest IH]; [reflexivity|].
  simpl. unfold mailbox_found. rewrite Hrole. simpl. rewrite IH. reflexivity.
Qed.

(** X14. The mailboxes [find_mailbox] selects. Called with neither a
    role nor a name (or with empty ones), it selects nothing, whatever
    the mailboxes of the account, and answers that no mailbox was found.
    Otherwise, among mailboxes that are JSON objects with a string name,
    it selects, in the order of the reply, those whose role equals the
    wanted role or whose lowered name holds the lowered wanted name; a
    name that is not a string raises [AttributeError] before any mailbox
    is looked at. *)
Theorem found_mailboxes_selection `{Platform} (args : dict)
  (mailboxes : list value) (wanted : string) :
  dict_get_default args "name" (VStr "") = VStr wanted ->
  (str_lower wanted = "" -> truthy (dict_get args "role") = false ->
   forall reply mbs, iterate reply = Ok mbs ->
     found_mailboxes args reply
     = Ok (inl (MARK_FAIL ++ " No mailboxes found matching your criteria.")))
  /\ (Forall named_mailbox mailboxes ->
      let found := filter (mailbox_matches (str_lower wanted)
                             (dict_get args "role")) mailboxes in
      found_mailboxes args (VList mailboxes)
      = Ok (match found with
            | [] => inl (MARK_FAIL
                         ++ " No mailboxes found matching your criteria.")
            | _ :: _ => inr found
            end))
  /\ (forall args' reply,
      (forall s, dict_get_default args' "name" (VStr "") <> VStr s) ->
      found_mailboxes args' reply = Raise (AttributeError "lower")).
Proof.
  intros Hname. unfold found_mailboxes. repeat split.
  - intros Hlow Hrole reply mbs Hit. rewrite Hname. cbn [method_lower res_bind].
    rewrite Hit, Hlow. cbn [res_bind].
    rewrite (found_among_nothing _ _ Hrole). reflexivity.
  - intros Hall. cbv zeta. rewrite Hname. cbn [method_lower iterate res_bind].
    rewrite (found_among_filter _ _ _ Hall). cbn [res_bind].
    destruct (filter _ mailboxes); reflexivity.
  - intros args' reply Hnot.
    destruct (dict_get_default args' "name" (VStr "")) eqn:Hn;
      try reflexivity.
    exfalso. eapply Hnot. reflexivity.
Qed.

(** X14, at a search for [inbox] by name, at a search by role [sent],
    and at a search without criteria, among three mailboxes. *)
Lemma found_mailboxes_selection_witness :
  found_mailboxes (P := offline) [("name", VStr "inbox")] (VList MAILBOXES3)
  = Ok (inr [VDict [("id", VStr "M2"); ("name", VStr "inbox-old");
                    ("role", VNone)]])
  /\ found_mailboxes (P := offline) [] (VList MAILBOXES3)
     = Ok (inl (MARK_FAIL ++ " No mailboxes found matching your criteria.")).
Proof.
  split.
  - apply (proj1 (proj2 (found_mailboxes_selection (H := offline)
                           [("name", VStr "inbox")] MAILBOXES3 "inbox"
                           eq_refl))).
    repeat constructor; do 2 eexists; split; reflexivity.
  - apply (proj1 (found_mailboxes_selection (H := offline) [] MAILBOXES3 ""
                    eq_refl) eq_refl eq_refl (VList MAILBOXES3) MAILBOXES3
             eq_refl).
Defined.

(** ** Arguments the catalogue does not declare *)

Lemma caught_snd `{Platform} (m : M string) (self : FastMailMCPServer) :
  snd (caught m self) = snd (m self).
Proof. unfold caught. destruct (m self) as [[out|e] s]; reflexivity. Qed.

Lemma request_then_read_snd `{Platform} {A} (method_calls : list value)
  (read : value -> res A) (self : FastMailMCPServer) :
  snd (bind (make_jmap_request method_calls)
         (fun result => lift (read result)) self)
  = snd (make_jmap_request method_calls self).
Proof. apply bind_after; reflexivity. Qed.

Ltac other_lookups Hne :=
  unfold dict_get, dict_get_default, subscript;
  rewrite ?dict_lookup_set;
  rewrite ?Hne by (simpl; tauto).

(** X15. An argument the catalogue does not declare for a tool is
    ignored by it: adding such an argument to a call, or changing its
    value, changes neither the requests the tool sends nor the object it
    leaves, and, for the tools whose modelled reply does not depend on
    the rendering of the arguments, not the reply either. *)
Theorem undeclared_arguments_ignored `{Platform} (t : types.Tool)
  (field : string) (v : value) (args : dict) (self : FastMailMCPServer) :
  In t handle_list_tools ->
  ~ In field (schema_arguments (types.inputSchema t)) ->
  snd (handle_call_tool (types.name t) (dict_set args field v) self)
  = snd (handle_call_tool (types.name t) args self)
  /\ (~ In (types.name t) ["list_mailboxes"; "find_mailbox"; "search_emails"] ->
      handle_call_tool (types.name t) (dict_set args field v) self
      = handle_call_tool (types.name t) args self).
Proof.
  intros Ht Hout.
  assert (Hne : forall k, In k (schema_arguments (types.inputSchema t)) ->
                          (field =? k)%string = false).
  { intros k Hk. apply String.eqb_neq. intros ->. auto. }
  simpl in Ht.
  repeat (destruct Ht as [<-|Ht]); try contradiction;
    cbn [types.name types.inputSchema] in *;
    unfold schema_arguments in Hne, Hout; cbn in Hne, Hout.
  - assert (Heq : configure_fastmail (dict_set args field v) self
                  = configure_fastmail args self).
    { unfold configure_fastmail, chosen_account. other_lookups Hne.
      reflexivity. }
    change (handle_call_tool "configure_fastmail" ?a)
      with (caught (configure_fastmail a)).
    unfold caught. rewrite Heq. auto.
  - split; [|simpl; tauto].
    change (handle_call_tool "list_mailboxes" ?a)
      with (caught (list_mailboxes a)).
    rewrite !caught_snd. unfold list_mailboxes.
    rewrite !bind_get_account_id, !request_then_read_snd. reflexivity.
  - split; [|simpl; tauto].
    change (handle_call_tool "find_mailbox" ?a) with (caught (find_mailbox a)).
    rewrite !caught_snd. unfold find_mailbox.
    rewrite !bind_get_account_id, !request_then_read_snd. reflexivity.
  - assert (Heq : get_emails (dict_set args field v) self
                  = get_emails args self).
    { unfold get_emails. other_lookups Hne. reflexivity. }
    change (handle_call_tool "get_emails" ?a) with (caught (get_emails a)).
    unfold caught. rewrite Heq. auto.
  - split; [|simpl; tauto].
    change (handle_call_tool "search_emails" ?a)
      with (caught (search_emails a)).
    rewrite !caught_snd. unfold search_emails.
    rewrite search_filter_set_other by (simpl; simpl in Hout; tauto).
    destruct (negb (truthy (VDict (search_filter args)))); [reflexivity|].
    cbv zeta. rewrite !bind_get_account_id, !request_then_read_snd.
    other_lookups Hne. reflexivity.
  - assert (Heq : get_email_body (dict_set args field v) self
                  = get_email_body args self).
    { unfold get_email_body. other_lookups Hne. reflexivity. }
    change (handle_call_tool "get_email_body" ?a)
      with (caught (get_email_body a)).
    unfold caught. rewrite Heq. auto.
  - assert (Heq : send_email (dict_set args field v) self
                  = send_email args self).
    { unfold send_email, send_email_calls. other_lookups Hne. reflexivity. }
    change (handle_call_tool "send_email" ?a) with (caught (send_email a)).
    unfold caught. rewrite Heq. auto.
Qed.

(** X15, at a send with an argument [priority], which the catalogue does
    not have. *)
Lemma undeclared_arguments_ignored_witness :
  handle_call_tool (P := offline) "send_email"
    (dict_set ARGS_SEND "priority" (VStr "high")) CONFIGURED
  = handle_call_tool (P := offline) "send_email" ARGS_SEND CONFIGURED.
Proof.
  apply (undeclared_arguments_ignored (H := offline)
           (nth 6 handle_list_tools (types.mkTool "" "" VNone))
           "priority" (VStr "high") ARGS_SEND CONFIGURED
           ltac:(simpl; tauto)
           ltac:(simpl; intuition discriminate)).
  simpl. intuition discriminate.
Defined.
